(** * FreightGuard: the delay-risk inference engine

    A shallow embedding of [ml/predict_delay.py], [ml/train_model.py],
    [utils/alerting.py] and the alerting step of
    [dags/delay_prediction_dag.py], and the properties of the inference
    engine, the feature builder, the trainer and the alert policy.

    Conventions of the embedding.
    - A Python [dict] with string keys is a [gmap string _]; a one-row
      pandas [DataFrame] is the map from its column names to the cell of
      its only row.
    - Python floats are exact rationals ([Q]): comparisons are the ones of
      the code, arithmetic carries no rounding error.  The special values
      pandas produces itself (NaN, NaT, the infinities of a division by
      zero) are cells of their own.
    - [datetime.now()] and SQL [NOW()] read a clock: the world counts the
      readings taken so far and the runtime gives the value of each.
    - An exception is a value of [exn]; code that can raise lives in the
      monad [M], a state monad over the world with an error result. *)

From Stdlib Require Import ZArith QArith Qround String List Lia Lqa.
From stdpp Require Import gmap strings list fin_maps pretty.

Local Open Scope Z_scope.
Local Open Scope string_scope.

(** ** Python values and DataFrame cells *)

(** The scalars an observation carries: [None], a finite number, a
    string, a [datetime] (seconds since the epoch, naive). *)
Inductive value : Type :=
| VNone
| VNum (q : Q)
| VStr (s : string)
| VTime (t : Z).

(** What one cell of the DataFrame can hold once pandas has worked on it. *)
Inductive cell : Type :=
| CNone
| CNum (q : Q)
| CStr (s : string)
| CTime (t : Z)
| CNaT
| CNaN
| CInf (positive : bool).

Definition cell_of_value (v : value) : cell :=
  match v with
  | VNone => CNone
  | VNum q => CNum q
  | VStr s => CStr s
  | VTime t => CTime t
  end.

(** ** Exceptions *)

Inductive exn : Type :=
| KeyError (key : string)
| ValueError (msg : string)
| TypeError (msg : string)
| AttributeError (msg : string)
| LibraryError (msg : string).

(** [str(e)] *)
Definition str_exn (e : exn) : string :=
  match e with
  | KeyError k => "'" ++ k ++ "'"
  | ValueError m | TypeError m | AttributeError m | LibraryError m => m
  end.

Inductive result (A : Type) : Type :=
| Ok (a : A)
| Raise (e : exn).
Arguments Ok {A} a.
Arguments Raise {A} e.

(** ** Risk tiers and prediction results *)

Inductive RiskLevel : Type := High | Medium | Low.

(** The dict [predict_delay] returns.  [features] is absent from a
    degraded result, [error] is absent from a successful one. *)
Record PredictionResult : Type := mkPrediction {
  shipment_id : value;
  delay_probability : Q;
  risk_level : RiskLevel;
  estimated_delay_minutes : Z;
  prediction_timestamp : Z;
  features : option (gmap string cell);
  error : option string;
  model_version : string
}.

(** ** The alerts table *)

(** One row of the [alerts] table.  The INSERT of [create_alert] gives
    [shipment_id], [alert_type], [severity], [title], [message] and
    [metadata]; the other columns take the table's defaults.  The title
    and the message are formatted strings: the row keeps the values they
    interpolate, the shipment id for the title, the probability and the
    estimated delay for the message. *)
Record AlertRow : Type := mkAlert {
  alert_id : nat;
  alert_shipment_id : string;
  alert_type : string;
  alert_severity : string;
  alert_title : value;
  alert_message : Q * Z;
  alert_metadata : option PredictionResult;
  triggered_at : Z;
  is_active : bool;
  resolved_at : option Z
}.

(** ** The world and the monad *)

(** [ticks]: how many times the clock has been read; [draws]: how many
    numbers numpy's generator has given since it was seeded; [alerts]:
    the rows of the alerts table, in insertion order. *)
Record World : Type := mkWorld {
  ticks : nat;
  draws : nat;
  alerts : list AlertRow
}.

(** What the embedding takes from outside the repository: the clock and
    the two pandas coercions.  Times are in seconds.
    - [wall_clock n] is the value of the [n]-th reading of the clock.
    - [to_numeric c] is [pd.to_numeric(_, errors='coerce')] on one cell:
      a number, or [None] for NaN; it never raises.
    - [to_datetime c] is [pd.to_datetime] on one cell: it raises, or gives
      a timestamp, or [None] for NaT. *)
Class Runtime : Type := {
  wall_clock : nat -> Z;
  to_numeric : cell -> option Q;
  to_datetime : cell -> result (option Z)
}.

Definition M (A : Type) : Type := World -> result A * World.

Definition ret {A} (a : A) : M A := fun w => (Ok a, w).

Definition raise {A} (e : exn) : M A := fun w => (Raise e, w).

Definition bind {A B} (m : M A) (k : A -> M B) : M B :=
  fun w =>
    match m w with
    | (Ok a, w') => k a w'
    | (Raise e, w') => (Raise e, w')
    end.

(** [try: body except Exception as e: handler].  What the body did to the
    world before it raised stays done. *)
Definition try_except {A} (body : M A) (handler : exn -> M A) : M A :=
  fun w =>
    match body w with
    | (Ok a, w') => (Ok a, w')
    | (Raise e, w') => handler e w'
    end.

Definition lift {A} (r : result A) : M A := fun w => (r, w).

Notation "'let*' x := m 'in' k" := (bind m (fun x => k))
  (at level 10, x name, m at level 100, k at level 200, only parsing).
Notation "'let*' ' pat := m 'in' k" :=
  (bind m (fun x => match x with pat => k end))
  (at level 10, pat pattern, m at level 100, k at level 200, only parsing).

(** [datetime.now()], and [NOW()] in SQL. *)
Definition now `{Runtime} : M Z :=
  fun w => (Ok (wall_clock (ticks w)), mkWorld (S (ticks w)) (draws w) (alerts w)).

(** ** sklearn's LabelEncoder *)

Module LabelEncoder.

(** A fitted encoder is its [classes_]: the distinct training labels
    in sorted order. *)
Record t : Type := mk { classes_ : list string }.

Fixpoint insert_sorted (s : string) (l : list string) : list string :=
  match l with
  | [] => [s]
  | x :: rest =>
      if String.eqb s x then l
      else if String.ltb s x then s :: l
      else x :: insert_sorted s rest
  end.

(** [fit]: [classes_ = sorted(set(labels))]. *)
Definition fit (labels : list string) : t :=
  mk (foldr insert_sorted [] labels).

Fixpoint index_of (s : string) (l : list string) : option nat :=
  match l with
  | [] => None
  | x :: rest =>
      if String.eqb s x then Some 0%nat
      else option_map S (index_of s rest)
  end.

(** [transform([x])[0]]: the position of the label in [classes_];
    a label that was not seen raises. *)
Definition transform (enc : t) (x : cell) : result nat :=
  match x with
  | CStr s =>
      match index_of s (classes_ enc) with
      | Some i => Ok i
      | None => Raise (ValueError "y contains previously unseen labels")
      end
  | _ => Raise (ValueError "y contains previously unseen labels")
  end.

(** [x in encoder.classes_] *)
Definition contains (enc : t) (x : cell) : bool :=
  match x with
  | CStr s => existsb (String.eqb s) (classes_ enc)
  | _ => false
  end.

End LabelEncoder.

(** ** The model artifact *)

(** The fitted sklearn objects, as what the code calls on them:
    [scaler.transform(features)] and [model.predict_proba(_)[0, 1]].
    Either call may raise. *)
Definition Scaler : Type := list cell -> result (list Q).
Definition Classifier : Type := list Q -> result Q.

(** The dict that [save_model] dumps and [load_model] reads back.  A key
    can be missing from a bundle found on disk (the outer [None]); the
    model and the scaler it holds can be Python's [None] (the inner one). *)
Record ModelData : Type := mkModelData {
  md_model : option (option Classifier);
  md_scaler : option (option Scaler);
  md_feature_encoders : option (gmap string LabelEncoder.t);
  md_feature_columns : option (list string);
  md_trained_at : option Z;
  md_version : option string
}.

(** ** Numbers *)

Definition Qltb (a b : Q) : bool := negb (Qle_bool b a).

(** [int(x)] on a float: truncation toward zero. *)
Definition py_int (x : Q) : Z := Z.quot (Qnum x) (Zpos (Qden x)).

(** [round(x)] on a float: to the nearest integer, ties to the even one. *)
Definition py_round (x : Q) : Z :=
  let f := Qfloor x in
  let r := (x - inject_Z f)%Q in
  if Qltb r (1#2) then f
  else if Qltb (1#2) r then f + 1
  else if Z.even f then f else f + 1.

(** [min(a, b)]: the first argument unless the second is smaller. *)
Definition py_min (a b : Q) : Q := if Qltb b a then b else a.

(** Float division as pandas does it on a column: no exception on a zero
    divisor. *)
Definition float_div (a b : Q) : cell :=
  if Qeq_bool b 0 then
    if Qeq_bool a 0 then CNaN else CInf (Qle_bool 0 a)
  else CNum (a / b).

(** [.dt.hour] and [.dt.dayofweek] (Monday is 0; the epoch was a Thursday). *)
Definition dt_hour (t : Z) : Z := (t mod 86400) / 3600.
Definition dt_dayofweek (t : Z) : Z := (t / 86400 + 3) mod 7.

(** ** Dicts and DataFrames *)

(** [d[k]] *)
Definition getitem {A} (d : gmap string A) (k : string) : result A :=
  match d !! k with
  | Some a => Ok a
  | None => Raise (KeyError k)
  end.

(** [d.get(k, default)] *)
Definition get_default {A} (d : gmap string A) (k : string) (dflt : A) : A :=
  match d !! k with
  | Some a => a
  | None => dflt
  end.

(** [.fillna(default)] on a numeric cell *)
Definition fillna (x : option Q) (dflt : Q) : Q :=
  match x with
  | Some q => q
  | None => dflt
  end.

(** [df[columns]]: the row restricted to [columns], in their order. *)
Fixpoint select (df : gmap string cell) (columns : list string)
  : result (list cell) :=
  match columns with
  | [] => Ok []
  | c :: rest =>
      match getitem df c with
      | Raise e => Raise e
      | Ok x =>
          match select df rest with
          | Raise e => Raise e
          | Ok xs => Ok (x :: xs)
          end
      end
  end.

(** [dict(zip(keys, values))] *)
Definition dict_zip (keys : list string) (values : list cell)
  : gmap string cell :=
  foldl (fun d kv => <[kv.1 := kv.2]> d) ∅ (zip keys values).

(** ** ml/predict_delay.py *)

Module Predict.

Record DelayPredictor : Type := mk {
  model : option Classifier;
  scaler : option Scaler;
  feature_encoders : gmap string LabelEncoder.t;
  feature_columns : list string
}.

(** [load_model]: the fields are assigned one after the other, so a
    bundle that lacks a key leaves the earlier ones assigned; every
    exception is caught and turned into [False]. *)
Definition load_model (self : DelayPredictor) (file : result ModelData)
  : DelayPredictor * bool :=
  match file with
  | Raise _ => (self, false)
  | Ok d =>
      match md_model d with
      | None => (self, false)
      | Some m =>
          let self1 :=
            mk m (scaler self) (feature_encoders self) (feature_columns self) in
          match md_scaler d with
          | None => (self1, false)
          | Some s =>
              let self2 :=
                mk m s (feature_encoders self) (feature_columns self) in
              match md_feature_encoders d with
              | None => (self2, false)
              | Some encs =>
                  let self3 := mk m s encs (feature_columns self) in
                  match md_feature_columns d with
                  | None => (self3, false)
                  | Some cols => (mk m s encs cols, true)
                  end
              end
          end
      end
  end.

(** [__init__]: [file] is [None] when nothing exists at the model path. *)
Definition new (file : option (result ModelData)) : DelayPredictor :=
  let self := mk None None ∅ [] in
  match file with
  | Some f => (load_model self f).1
  | None => self
  end.

(** The lambda applied to a categorical column. *)
Definition encode_label (encoder : LabelEncoder.t) (x : cell) : result cell :=
  if LabelEncoder.contains encoder x then
    match LabelEncoder.transform encoder x with
    | Ok i => Ok (CNum (inject_Z (Z.of_nat i)))
    | Raise e => Raise e
    end
  else Ok (CNum 0).

(** One round of the loop over [['weather', 'traffic_level']]. *)
Definition encode_column (self : DelayPredictor) (col : string)
  (df : gmap string cell) : result (gmap string cell) :=
  match df !! col, feature_encoders self !! col with
  | Some x, Some encoder =>
      match encode_label encoder x with
      | Ok c => Ok (<[col ++ "_encoded" := c]> df)
      | Raise e => Raise e
      end
  | _, _ => Ok (<[col ++ "_encoded" := CNum 0]> df)
  end.

(** The three columns derived from the timestamp column; [None] is NaT. *)
Definition time_features (ts : option Z) (df : gmap string cell)
  : gmap string cell :=
  let hour_of_day :=
    match ts with Some t => CNum (inject_Z (dt_hour t)) | None => CNaN end in
  let day_of_week :=
    match ts with
    | Some t => CNum (inject_Z (dt_dayofweek t))
    | None => CNaN
    end in
  let is_weekend :=
    match ts with
    | Some t => CNum (if (5 <=? dt_dayofweek t)%Z then 1 else 0)
    | None => CNum 0
    end in
  <["is_weekend" := is_weekend]>
    (<["day_of_week" := day_of_week]>
       (<["hour_of_day" := hour_of_day]> df)).

(** [(distance / (speed + 1)) / 100] *)
Definition route_complexity (distance speed : Q) : cell :=
  match float_div distance (speed + 1) with
  | CNum q => CNum (q / 100)
  | c => c
  end.

(** The loop that gives every missing schema column the value 0. *)
Definition fill_missing (columns : list string) (df : gmap string cell)
  : gmap string cell :=
  foldl (fun df col =>
           match df !! col with
           | Some _ => df
           | None => <[col := CNum 0]> df
           end) df columns.


(** Lines 46-83 of [prepare_features]: the frame with the fields of the
    observation and the computed columns. *)
Definition build_frame `{Runtime} (self : DelayPredictor)
  (shipment_data : gmap string value) : M (gmap string cell) :=
  let df := cell_of_value <$> shipment_data in
  let* distance_raw := lift (getitem df "distance_remaining_km") in
  let distance := fillna (to_numeric distance_raw) 1000 in
  let df := <["distance_remaining_km" := CNum distance]> df in
  let* speed_raw := lift (getitem df "vehicle_speed_kmph") in
  let speed := fillna (to_numeric speed_raw) 60 in
  let df := <["vehicle_speed_kmph" := CNum speed]> df in
  let* df := lift (encode_column self "weather" df) in
  let* df := lift (encode_column self "traffic_level" df) in
  let* ts :=
    match df !! "timestamp" with
    | Some c => lift (to_datetime c)
    | None => let* t := now in ret (Some t)
    end in
  let df :=
    <["timestamp" := match ts with Some t => CTime t | None => CNaT end]> df in
  let df := time_features ts df in
  let df := <["origin_risk_score" := CNum (1#10)]> df in
  let df := <["destination_risk_score" := CNum (1#10)]> df in
  let df := <["route_complexity" := route_complexity distance speed]> df in
  ret df.

(** [prepare_features]: the frame, then lines 85-90. *)
Definition prepare_features `{Runtime} (self : DelayPredictor)
  (shipment_data : gmap string value) : M (list cell) :=
  let* df := build_frame self shipment_data in
  let df := fill_missing (feature_columns self) df in
  lift (select df (feature_columns self)).

(** Lines 113-119: the estimated delay in minutes. *)
Definition estimate_delay (delay_probability : Q)
  (shipment_data : gmap string value) : result Z :=
  if Qltb (1#2) delay_probability then
    let base_delay := (delay_probability * 120)%Q in
    match get_default shipment_data "distance_remaining_km" (VNum 1000) with
    | VNum d =>
        let distance_factor := py_min (d / 1000) 2 in
        Ok (py_int (base_delay * distance_factor))
    | _ => Raise (TypeError "unsupported operand type(s) for /")
    end
  else Ok 0.

(** Lines 121-127: the risk tier. *)
Definition categorize (delay_probability : Q) : RiskLevel :=
  if Qle_bool (7#10) delay_probability then High
  else if Qle_bool (4#10) delay_probability then Medium
  else Low.

(** The "default safe prediction" of the two [except] branches. *)
Definition degraded (sid : value) (timestamp : Z) (e : exn) : PredictionResult :=
  {| shipment_id := sid;
     delay_probability := 1#2;
     risk_level := Medium;
     estimated_delay_minutes := 60;
     prediction_timestamp := timestamp;
     features := None;
     error := Some (str_exn e);
     model_version := "1.0" |}.

(** The [try] block of [predict_delay], lines 98-139. *)
Definition predict_body `{Runtime} (self : DelayPredictor) (clf : Classifier)
  (shipment_data : gmap string value) : M (Q * PredictionResult) :=
  let* features := prepare_features self shipment_data in
  let* features_scaled :=
    match scaler self with
    | Some sc => lift (sc features)
    | None =>
        raise (AttributeError "'NoneType' object has no attribute 'transform'")
    end in
  let* delay_probability := lift (clf features_scaled) in
  let feature_importance := dict_zip (feature_columns self) features in
  let* estimated := lift (estimate_delay delay_probability shipment_data) in
  let risk := categorize delay_probability in
  let* t := now in
  ret (delay_probability,
       {| shipment_id := get_default shipment_data "shipment_id" VNone;
          delay_probability := delay_probability;
          risk_level := risk;
          estimated_delay_minutes := estimated;
          prediction_timestamp := t;
          features := Some feature_importance;
          error := None;
          model_version := "1.0" |}).

Definition not_loaded : exn :=
  ValueError "Model not loaded. Please load a trained model first.".

Definition predict_delay `{Runtime} (self : DelayPredictor)
  (shipment_data : gmap string value) : M (Q * PredictionResult) :=
  match model self with
  | None => raise not_loaded
  | Some clf =>
      try_except
        (predict_body self clf shipment_data)
        (fun e =>
           let* t := now in
           ret (1#2,
                degraded (get_default shipment_data "shipment_id" VNone) t e))
  end.

(** The body of the loop of [predict_batch]: one shipment, appended to
    [results]. *)
Definition predict_item `{Runtime} (self : DelayPredictor)
  (results : list PredictionResult) (shipment : gmap string value)
  : M (list PredictionResult) :=
  try_except
    (let* '(_, r) := predict_delay self shipment in
     ret (results ++ [r])%list)
    (fun e =>
       let* t := now in
       ret (results ++
              [degraded (get_default shipment "shipment_id" (VStr "unknown"))
                        t e])%list).

Fixpoint predict_loop `{Runtime} (self : DelayPredictor)
  (results : list PredictionResult) (shipment_list : list (gmap string value))
  : M (list PredictionResult) :=
  match shipment_list with
  | [] => ret results
  | shipment :: rest =>
      let* results := predict_item self results shipment in
      predict_loop self results rest
  end.

Definition predict_batch `{Runtime} (self : DelayPredictor)
  (shipment_list : list (gmap string value)) : M (list PredictionResult) :=
  predict_loop self [] shipment_list.

Definition should_trigger_alert (prediction_result : PredictionResult)
  (threshold : Q) : bool :=
  Qle_bool threshold (delay_probability prediction_result).

End Predict.

(** ** utils/alerting.py and the alerting step of the DAG *)

Module Alerting.

Record AlertManager : Type := mk { database_url : option string }.

(** The dict [trigger_alerts] hands to [create_alert]. *)
Record AlertData : Type := mkData {
  ad_shipment_id : value;
  ad_alert_type : string;
  ad_severity : string;
  ad_title : value;
  ad_message : Q * Z;
  ad_metadata : PredictionResult
}.

(** The WHERE clause of the lookup in [create_alert], on one row:
    same shipment, same type, active, triggered less than an hour
    (3600 s) before [now]. *)
Definition similar_active (sid atype : string) (now : Z) (r : AlertRow) : bool :=
  String.eqb (alert_shipment_id r) sid
  && String.eqb (alert_type r) atype
  && is_active r
  && (now - 3600 <? triggered_at r)%Z.

(** Modelled from the spec: the definition of the [alerts] table is not
    among the sources.  The spec identifies an Alert by its shipment
    identifier and alert type, creates it active and gives it a triggered
    timestamp: the shipment_id column is a text that is not null (a
    parameter of another type makes the statement fail), [is_active]
    defaults to TRUE and [triggered_at] to NOW(). *)
Definition sql_text (v : value) : result string :=
  match v with
  | VStr s => Ok s
  | _ => Raise (LibraryError "psycopg2: shipment_id is not a text value")
  end.

Definition new_row (rows : list AlertRow) (sid : string) (now : Z)
  (alert_data : AlertData) : AlertRow :=
  {| alert_id := S (length rows);
     alert_shipment_id := sid;
     alert_type := ad_alert_type alert_data;
     alert_severity := ad_severity alert_data;
     alert_title := ad_title alert_data;
     alert_message := ad_message alert_data;
     alert_metadata := Some (ad_metadata alert_data);
     triggered_at := now;
     is_active := true;
     resolved_at := None |}.

Definition get_rows : M (list AlertRow) := fun w => (Ok (alerts w), w).

Definition insert_row (r : AlertRow) : M unit :=
  fun w => (Ok tt, mkWorld (ticks w) (draws w) (alerts w ++ [r])%list).

(** [create_alert]: the lookup and the INSERT run in one transaction, so
    [NOW()] is read once.  The notification that follows the commit only
    prints. *)
Definition create_alert `{Runtime} (self : AlertManager)
  (alert_data : AlertData) : M bool :=
  match database_url self with
  | None => ret false
  | Some _ =>
      try_except
        (let* t := now in
         let* sid := lift (sql_text (ad_shipment_id alert_data)) in
         let* rows := get_rows in
         if existsb (similar_active sid (ad_alert_type alert_data) t) rows
         then ret false
         else
           let* _ := insert_row (new_row rows sid t alert_data) in
           ret true)
        (fun _ => ret false)
  end.

(** [resolve_alert]: the UPDATE touches the active row with this id. *)
Definition resolve_row (id : nat) (resolved_time : Z) (r : AlertRow) : AlertRow :=
  if Nat.eqb (alert_id r) id && is_active r then
    {| alert_id := alert_id r;
       alert_shipment_id := alert_shipment_id r;
       alert_type := alert_type r;
       alert_severity := alert_severity r;
       alert_title := alert_title r;
       alert_message := alert_message r;
       alert_metadata := alert_metadata r;
       triggered_at := triggered_at r;
       is_active := false;
       resolved_at := Some resolved_time |}
  else r.

Definition resolve_alert `{Runtime} (self : AlertManager) (id : nat) : M bool :=
  match database_url self with
  | None => ret false
  | Some _ =>
      let* t := now in
      fun w =>
        (Ok (existsb (fun r => Nat.eqb (alert_id r) id && is_active r) (alerts w)),
         mkWorld (ticks w) (draws w) (map (resolve_row id t) (alerts w)))
  end.

(** The dict built in the loop of [trigger_alerts]. *)
Definition alert_data_of (prediction : PredictionResult) : AlertData :=
  let p := delay_probability prediction in
  {| ad_shipment_id := shipment_id prediction;
     ad_alert_type := "delay_prediction";
     ad_severity := if Qle_bool (8#10) p then "High" else "Medium";
     ad_title := shipment_id prediction;
     ad_message := (p, estimated_delay_minutes prediction);
     ad_metadata := prediction |}.

(** The body of the loop of [trigger_alerts]. *)
Definition trigger_one `{Runtime} (alert_manager : AlertManager)
  (threshold : Q) (alert_count : nat) (prediction : PredictionResult) : M nat :=
  if Qle_bool threshold (delay_probability prediction) then
    let* created := create_alert alert_manager (alert_data_of prediction) in
    ret (if created then S alert_count else alert_count)
  else ret alert_count.

Fixpoint trigger_loop `{Runtime} (alert_manager : AlertManager)
  (threshold : Q) (alert_count : nat) (predictions : list PredictionResult)
  : M nat :=
  match predictions with
  | [] => ret alert_count
  | prediction :: rest =>
      let* alert_count := trigger_one alert_manager threshold alert_count prediction in
      trigger_loop alert_manager threshold alert_count rest
  end.

(** [trigger_alerts]: [env_database_url] and [env_threshold] are the
    environment variables DATABASE_URL and PREDICTION_THRESHOLD. *)
Definition trigger_alerts `{Runtime} (env_database_url : option string)
  (env_threshold : option Q) (predictions : list PredictionResult) : M nat :=
  match predictions with
  | [] => ret 0%nat
  | _ =>
      let alert_manager := mk env_database_url in
      let threshold := default (7#10) env_threshold in
      trigger_loop alert_manager threshold 0 predictions
  end.

End Alerting.

(** ** ml/train_model.py *)

Module Train.

(** One row of the training frame: the columns of the SQL query of
    [load_training_data], which are also the keys of a synthetic sample. *)
Record Row : Type := mkRow {
  row_shipment_id : string;
  origin : string;
  destination : string;
  distance_remaining_km : Q;
  vehicle_speed_kmph : Q;
  weather : string;
  traffic_level : string;
  timestamp : Z;
  eta : Z;
  updated_at : Z;
  is_delayed : bool
}.

(** What training takes from numpy and sklearn.
    - [np_randint k lo hi], [np_uniform k lo hi], [np_random k] and
      [np_choice k l] are the [k]-th draw of the seeded generator, read as
      [np.random.randint(lo, hi)], [np.random.uniform(lo, hi)],
      [np.random.random()] and [np.random.choice(l)].
    - [fit_estimators X y] is the split, the fit of the scaler and the
      grid search of [train_model] on the feature rows [X] and labels [y]:
      it raises, or gives the fitted scaler and the best estimator. *)
Class Learner : Type := {
  np_randint : nat -> Z -> Z -> Z;
  np_uniform : nat -> Q -> Q -> Q;
  np_random : nat -> Q;
  np_choice : nat -> list string -> string;
  fit_estimators : list (list cell) -> list bool -> result (Scaler * Classifier)
}.

Record DelayPredictor : Type := mk {
  model : option Classifier;
  feature_encoders : gmap string LabelEncoder.t;
  scaler : option Scaler;
  feature_columns : list string
}.

(** [__init__]; the scaler is a [StandardScaler()] that is not fitted yet. *)
Definition new : DelayPredictor :=
  mk None ∅ None
     [ "distance_remaining_km"; "vehicle_speed_kmph"; "weather_encoded";
       "traffic_level_encoded"; "hour_of_day"; "day_of_week"; "is_weekend";
       "origin_risk_score"; "destination_risk_score"; "route_complexity" ].

Definition seed : M unit :=
  fun w => (Ok tt, mkWorld (ticks w) 0 (alerts w)).

Definition draw {A} (f : nat -> A) : M A :=
  fun w => (Ok (f (draws w)), mkWorld (ticks w) (S (draws w)) (alerts w)).

Definition cities : list string :=
  [ "Los Angeles"; "New York"; "Chicago"; "Houston"; "Phoenix";
    "Philadelphia"; "San Antonio"; "San Diego"; "Dallas"; "San Jose";
    "Austin"; "Jacksonville"; "Fort Worth"; "Columbus"; "Charlotte" ].
Definition weather_conditions : list string :=
  [ "Clear"; "Rain"; "Snow"; "Fog"; "Storm" ].
Definition traffic_levels : list string :=
  [ "Light"; "Moderate"; "Heavy"; "Very Heavy" ].

Definition member (s : string) (l : list string) : bool :=
  existsb (String.eqb s) l.

(** [f'SYNTH_{i:06d}'] *)
Definition synth_id (i : nat) : string :=
  let digits := pretty i in
  "SYNTH_" ++ String.concat "" (replicate (6 - String.length digits) "0")
           ++ digits.

(** [base_speed *= np.random.uniform(lo, hi)] when [cond] holds; the
    draw is made only then. *)
Definition slow_down `{Learner} (cond : bool) (lo hi base_speed : Q) : M Q :=
  if cond then
    let* f := draw (fun k => np_uniform k lo hi) in
    ret (base_speed * f)%Q
  else ret base_speed.

Definition bump (cond : bool) (amount factors : Q) : Q :=
  if cond then (factors + amount)%Q else factors.

(** One round of the loop of [_generate_synthetic_training_data].  The
    travel time, a [timedelta] of fractional hours, is rounded to the
    second. *)
Definition synthetic_sample `{Runtime} `{Learner} (i : nat) : M Row :=
  let* distance := draw (fun k => np_randint k 100 4000) in
  let* base_speed := draw (fun k => np_uniform k 40 80) in
  let* weather := draw (fun k => np_choice k weather_conditions) in
  let* traffic := draw (fun k => np_choice k traffic_levels) in
  let* base_speed :=
    slow_down (member weather ["Rain"; "Snow"; "Fog"]) (6#10) (9#10) base_speed in
  let* base_speed :=
    slow_down (String.eqb weather "Storm") (4#10) (7#10) base_speed in
  let* base_speed :=
    slow_down (member traffic ["Heavy"; "Very Heavy"]) (5#10) (8#10) base_speed in
  let* t := now in
  let* days := draw (fun k => np_randint k 1 365) in
  let timestamp := (t - days * 86400)%Z in
  let delay_factors := 0%Q in
  let delay_factors :=
    bump (Qltb 2000 (inject_Z distance)) (2#10) delay_factors in
  let delay_factors := bump (Qltb base_speed 50) (3#10) delay_factors in
  let delay_factors :=
    bump (member weather ["Rain"; "Snow"; "Storm"]) (25#100) delay_factors in
  let delay_factors :=
    bump (member traffic ["Heavy"; "Very Heavy"]) (2#10) delay_factors in
  let delay_factors :=
    bump (existsb (Z.eqb (dt_hour timestamp)) [6; 7; 8; 17; 18; 19]%Z)
         (15#100) delay_factors in
  let* noise := draw (fun k => np_uniform k (-1#10) (1#10)) in
  let delay_probability := py_min (delay_factors + noise) (9#10) in
  let* u := draw np_random in
  let is_delayed := Qltb u delay_probability in
  let* origin := draw (fun k => np_choice k cities) in
  let* destination := draw (fun k => np_choice k cities) in
  let hours := (inject_Z distance / base_speed)%Q in
  ret {| row_shipment_id := synth_id i;
         origin := origin;
         destination := destination;
         distance_remaining_km := inject_Z distance;
         vehicle_speed_kmph := (inject_Z (py_round (base_speed * 10)) / 10)%Q;
         weather := weather;
         traffic_level := traffic;
         timestamp := timestamp;
         eta := (timestamp + py_round (hours * 3600))%Z;
         updated_at :=
           (timestamp
            + py_round ((hours + (if is_delayed then 2 else 0)) * 3600))%Z;
         is_delayed := is_delayed |}.

Fixpoint synthetic_loop `{Runtime} `{Learner} (data : list Row)
  (indices : list nat) : M (list Row) :=
  match indices with
  | [] => ret data
  | i :: rest =>
      let* sample := synthetic_sample i in
      synthetic_loop (data ++ [sample])%list rest
  end.

Definition _generate_synthetic_training_data `{Runtime} `{Learner}
  (n_samples : nat) : M (list Row) :=
  let* _ := seed in
  synthetic_loop [] (seq 0 n_samples).

(** [load_training_data]: [query] is what connecting and reading the
    history gives, the rows or an exception. *)
Definition load_training_data `{Runtime} `{Learner}
  (query : result (list Row)) : M (list Row) :=
  try_except
    (let* df := lift query in
     if (length df <? 100)%nat then _generate_synthetic_training_data 5000
     else ret df)
    (fun _ => _generate_synthetic_training_data 5000).

(** [encoder.transform(column)] *)
Fixpoint transform_all (enc : LabelEncoder.t) (labels : list string)
  : result (list nat) :=
  match labels with
  | [] => Ok []
  | x :: rest =>
      match LabelEncoder.transform enc (CStr x) with
      | Raise e => Raise e
      | Ok i =>
          match transform_all enc rest with
          | Raise e => Raise e
          | Ok codes => Ok (i :: codes)
          end
      end
  end.

(** One round of the loop over the categorical columns of
    [engineer_features]: an encoder is fitted for a column that has none,
    and used as it is otherwise. *)
Definition encode_training_column (encoders : gmap string LabelEncoder.t)
  (col : string) (labels : list string)
  : result (gmap string LabelEncoder.t * list nat) :=
  match encoders !! col with
  | None =>
      let enc := LabelEncoder.fit labels in
      match transform_all enc labels with
      | Ok codes => Ok (<[col := enc]> encoders, codes)
      | Raise e => Raise e
      end
  | Some enc =>
      match transform_all enc labels with
      | Ok codes => Ok (encoders, codes)
      | Raise e => Raise e
      end
  end.

(** [value_counts().get(x, 1) / len(df)] *)
Definition risk_score (x : string) (column : list string) : Q :=
  let n := length (filter (String.eqb x) column) in
  (inject_Z (Z.of_nat (if n is O then 1%nat else n))
   / inject_Z (Z.of_nat (length column)))%Q.

(** The ten feature columns of one row, in the order of
    [feature_columns]. *)
Definition feature_row (df : list Row) (r : Row) (weather_code traffic_code : nat)
  : list cell :=
  [ CNum (distance_remaining_km r);
    CNum (vehicle_speed_kmph r);
    CNum (inject_Z (Z.of_nat weather_code));
    CNum (inject_Z (Z.of_nat traffic_code));
    CNum (inject_Z (dt_hour (timestamp r)));
    CNum (inject_Z (dt_dayofweek (timestamp r)));
    CNum (if (5 <=? dt_dayofweek (timestamp r))%Z then 1 else 0);
    CNum (risk_score (origin r) (map origin df));
    CNum (risk_score (destination r) (map destination df));
    Predict.route_complexity (distance_remaining_km r) (vehicle_speed_kmph r) ].

Fixpoint feature_rows (df rows : list Row) (weather_codes traffic_codes : list nat)
  : list (list cell) :=
  match rows, weather_codes, traffic_codes with
  | r :: rows', wc :: wcs, tc :: tcs =>
      feature_row df r wc tc :: feature_rows df rows' wcs tcs
  | _, _, _ => []
  end.

(** [engineer_features] followed by the selection of [feature_columns]:
    the encoders as the call leaves them, and the feature rows. *)
Definition engineer_features (self : DelayPredictor) (df : list Row)
  : result (DelayPredictor * list (list cell)) :=
  match encode_training_column (feature_encoders self) "weather"
          (map weather df) with
  | Raise e => Raise e
  | Ok (encoders, weather_codes) =>
      match encode_training_column encoders "traffic_level"
              (map traffic_level df) with
      | Raise e => Raise e
      | Ok (encoders, traffic_codes) =>
          Ok (mk (model self) encoders (scaler self) (feature_columns self),
              feature_rows df df weather_codes traffic_codes)
      end
  end.

Definition train_model `{Learner} (self : DelayPredictor) (df : list Row)
  : result DelayPredictor :=
  match engineer_features self df with
  | Raise e => Raise e
  | Ok (self, X) =>
      let y := map is_delayed df in
      match fit_estimators X y with
      | Raise e => Raise e
      | Ok (fitted_scaler, best_estimator) =>
          Ok (mk (Some best_estimator) (feature_encoders self)
                 (Some fitted_scaler) (feature_columns self))
      end
  end.

(** [save_model]: the bundle that is dumped at the model path. *)
Definition save_model `{Runtime} (self : DelayPredictor) : M ModelData :=
  let* t := now in
  ret {| md_model := Some (model self);
         md_scaler := Some (scaler self);
         md_feature_encoders := Some (feature_encoders self);
         md_feature_columns := Some (feature_columns self);
         md_trained_at := Some t;
         md_version := Some "1.0" |}.

(** [main]: load or synthesize, train, save. *)
Definition main `{Runtime} `{Learner} (query : result (list Row)) : M ModelData :=
  let predictor := new in
  let* df := load_training_data query in
  let* predictor := lift (train_model predictor df) in
  save_model predictor.

(** Whether [load_training_data] takes the synthetic branch on [query]. *)
Definition synthesizes (query : result (list Row)) : bool :=
  match query with
  | Ok df => (length df <? 100)%nat
  | Raise _ => true
  end.

(** What a bundle says about where it comes from: its version and its
    training time. *)
Definition provenance (bundle : ModelData) : option string * option Z :=
  (md_version bundle, md_trained_at bundle).

(** How the trainer's [load_model] can fail: nothing at the model path,
    or an exception of [joblib.load] or of a missing key. *)
Inductive load_error : Type :=
| FileNotFoundError (msg : string)
| LoadRaised (e : exn).

(** The trainer's [load_model], lines 275-294: no exception is caught.
    The fields are assigned one after the other, so the predictor keeps
    what was assigned before a key was found missing.  [file] is [None]
    when nothing exists at the model path. *)
Definition load_model (self : DelayPredictor) (file : option (result ModelData))
  : DelayPredictor * (load_error + option Classifier) :=
  match file with
  | None => (self, inl (FileNotFoundError "Model file not found"))
  | Some (Raise e) => (self, inl (LoadRaised e))
  | Some (Ok d) =>
      match md_model d with
      | None => (self, inl (LoadRaised (KeyError "model")))
      | Some m =>
          let self1 :=
            mk m (feature_encoders self) (scaler self) (feature_columns self) in
          match md_scaler d with
          | None => (self1, inl (LoadRaised (KeyError "scaler")))
          | Some s =>
              let self2 :=
                mk m (feature_encoders self) s (feature_columns self) in
              match md_feature_encoders d with
              | None => (self2, inl (LoadRaised (KeyError "feature_encoders")))
              | Some encs =>
                  let self3 := mk m encs s (feature_columns self) in
                  match md_feature_columns d with
                  | None =>
                      (self3, inl (LoadRaised (KeyError "feature_columns")))
                  | Some cols => (mk m encs s cols, inr m)
                  end
              end
          end
      end
  end.

End Train.

(** ** dags/delay_prediction_dag.py: the consumer *)

Module Dag.

(** The loop of [consume_kafka_data] over what iterating the consumer
    gives: each item is a message whose value was deserialized, or the
    exception its deserialization raised.  The loop stops after 1000
    messages. *)
Fixpoint consume_loop (messages : list (gmap string value)) (message_count : nat)
  (consumer : list (result (gmap string value)))
  : result (list (gmap string value)) :=
  match consumer with
  | [] => Ok messages
  | item :: rest =>
      match item with
      | Raise e => Raise e
      | Ok shipment_data =>
          let messages := (messages ++ [shipment_data])%list in
          let message_count := S message_count in
          if (1000 <=? message_count)%nat then Ok messages
          else consume_loop messages message_count rest
      end
  end.

(** [consume_kafka_data]: [connection] is what building the consumer
    gives, the stream or an exception.  The result is the list pushed
    to XCom under [kafka_messages] and the value returned.  Any
    exception empties the list. *)
Definition consume_kafka_data
  (connection : result (list (result (gmap string value))))
  : list (gmap string value) * nat :=
  match connection with
  | Raise _ => ([], 0%nat)
  | Ok consumer =>
      match consume_loop [] 0 consumer with
      | Ok messages => (messages, length messages)
      | Raise _ => ([], 0%nat)
      end
  end.

End Dag.

(** ** The specification's wording *)


(** A degraded result: the fixed numbers, and the error field set to the
    text of the exception. *)
Definition is_degraded (r : PredictionResult) (e : exn) : Prop :=
  delay_probability r = 1#2
  /\ risk_level r = Medium
  /\ estimated_delay_minutes r = 60
  /\ error r = Some (str_exn e).


(** ** Sample data *)

(** A clock that starts on Monday 2024-01-15 at 14:30:00 and gains a
    minute at each reading, and coercions that know numbers, timestamps
    and one ISO string. *)
Definition sample_runtime : Runtime :=
  {| wall_clock := fun n => 1705329000 + 60 * Z.of_nat n;
     to_numeric := fun c => match c with CNum q => Some q | _ => None end;
     to_datetime := fun c =>
       match c with
       | CTime t => Ok (Some t)
       | CNone | CNaT | CNaN => Ok None
       | CStr s =>
           if String.eqb s "2024-01-15T14:30:00Z" then Ok (Some 1705329000)
           else Raise (ValueError "Unknown datetime string format")
       | _ => Raise (TypeError "cannot convert input to a timestamp")
       end |}.

Definition stub_scaler : Scaler := fun cells => Ok (map (fun _ => 0%Q) cells).

Definition stub_model (p : Q) : Classifier := fun _ => Ok p.

Definition sample_learner : Train.Learner :=
  {| Train.np_randint := fun _ lo _ => lo;
     Train.np_uniform := fun _ lo _ => lo;
     Train.np_random := fun _ => 1#2;
     Train.np_choice := fun k l => nth (k mod length l) l "";
     Train.fit_estimators := fun _ _ => Ok (stub_scaler, stub_model (7#10)) |}.

Definition sample_encoders : gmap string LabelEncoder.t :=
  {[ "weather" := LabelEncoder.fit ["Rain"; "Clear"; "Snow"];
     "traffic_level" := LabelEncoder.fit ["Light"; "Moderate"; "Heavy"] ]}.

(** A loaded engine whose classifier answers [p]. *)
Definition sample_predictor (p : Q) : Predict.DelayPredictor :=
  Predict.mk (Some (stub_model p)) (Some stub_scaler) sample_encoders
             (Train.feature_columns Train.new).

Definition sample_shipment (distance : Q) : gmap string value :=
  {[ "shipment_id" := VStr "TEST001";
     "distance_remaining_km" := VNum distance;
     "vehicle_speed_kmph" := VNum 60;
     "weather" := VStr "Rain";
     "traffic_level" := VStr "Heavy";
     "timestamp" := VStr "2024-01-15T14:30:00Z" ]}.

(** An engine whose schema asks for a column that nothing computes. *)
Definition wide_predictor : Predict.DelayPredictor :=
  Predict.mk (Some (stub_model (7#10))) (Some stub_scaler) sample_encoders
             ["route_complexity"; "cargo_value"; "is_weekend"; "hour_of_day"].

(** The same observation without its timestamp. *)
Definition undated_shipment : gmap string value :=
  delete "timestamp" (sample_shipment 1000).

(** An observation that only has its identifier. *)
Definition bare_shipment : gmap string value :=
  {[ "shipment_id" := VStr "TEST002" ]}.

Definition empty_world : World := mkWorld 0 0 [].

(** The result a computation returns when it starts in the empty world. *)
Definition returned {A} (m : M A) : option A :=
  match (m empty_world).1 with
  | Ok a => Some a
  | Raise _ => None
  end.

Definition sample_row (i : nat) : Train.Row :=
  {| Train.row_shipment_id := pretty i;
     Train.origin := "Chicago";
     Train.destination := "Dallas";
     Train.distance_remaining_km := 1200;
     Train.vehicle_speed_kmph := 55;
     Train.weather := if Nat.even i then "Rain" else "Clear";
     Train.traffic_level := "Light";
     Train.timestamp := 1705329000;
     Train.eta := 1705400000;
     Train.updated_at := 1705400000;
     Train.is_delayed := Nat.even i |}.

(** A database is configured. *)
Definition sample_manager : Alerting.AlertManager :=
  Alerting.mk (Some "postgresql://freight").

(** A prediction for shipment S1 with probability [p]. *)
Definition sample_prediction (p : Q) : PredictionResult :=
  {| shipment_id := VStr "S1";
     delay_probability := p;
     risk_level := Predict.categorize p;
     estimated_delay_minutes := 90;
     prediction_timestamp := 1705329000;
     features := None;
     error := None;
     model_version := "1.0" |}.

(** A history of [n] labelled rows. *)
Definition sample_history (n : nat) : list Train.Row := map sample_row (seq 0 n).

(** What one round of the batch loop leaves for [shipment] when it starts
    in world [w]: the result of the [try] block of [predict_delay] when it
    has one, a degraded result otherwise; and the identifier of the
    shipment in either case. *)
Definition item_result `{Runtime} (self : Predict.DelayPredictor)
  (shipment : gmap string value) (w : World) (r : PredictionResult) : Prop :=
  match Predict.model self with
  | None => is_degraded r Predict.not_loaded
  | Some clf =>
      match (Predict.predict_body self clf shipment w).1 with
      | Ok (_, r') => r = r'
      | Raise e => is_degraded r e
      end
  end
  /\ (forall v, shipment !! "shipment_id" = Some v -> shipment_id r = v).

(** The results the engine hands out: the one [predict_delay] returns,
    and each element of what [predict_batch] returns. *)
Definition produced `{Runtime} (self : Predict.DelayPredictor)
  (r : PredictionResult) : Prop :=
  (exists shipment w p w',
      Predict.predict_delay self shipment w = (Ok (p, r), w'))
  \/ (exists shipments w results w',
        Predict.predict_batch self shipments w = (Ok results, w')
        /\ r ∈ results).

(** Where a result can come from: the [try] block of [predict_delay], or
    one of the two [except] branches. *)
Definition from_body_or_handler `{Runtime} (self : Predict.DelayPredictor)
  (r : PredictionResult) : Prop :=
  (exists clf shipment w p w',
      Predict.predict_body self clf shipment w = (Ok (p, r), w'))
  \/ (exists sid t e, r = Predict.degraded sid t e).

(** A row that one round of the alerting loop can have written for one
    of [predictions] at [threshold]: active, not resolved, of type
    [delay_prediction], with the prediction as metadata, the shipment of
    the prediction, and the severity its probability gives. *)
Definition alert_row_for (threshold : Q) (predictions : list PredictionResult)
  (row : AlertRow) : Prop :=
  is_active row = true
  /\ resolved_at row = None
  /\ alert_type row = "delay_prediction"
  /\ exists prediction,
       prediction ∈ predictions
       /\ alert_metadata row = Some prediction
       /\ shipment_id prediction = VStr (alert_shipment_id row)
       /\ (threshold <= delay_probability prediction)%Q
       /\ alert_severity row
          = if Qle_bool (8#10) (delay_probability prediction)
            then "High" else "Medium".

(** What the generator promises for its [i]-th row when numpy's draws
    stay in their ranges: the identifier, a distance in [100, 4000), a
    speed in (0, 80], and categories and cities taken from its lists. *)
Definition synthetic_row_ok (i : nat) (r : Train.Row) : Prop :=
  Train.row_shipment_id r = Train.synth_id i
  /\ (100 <= Train.distance_remaining_km r)%Q
  /\ (Train.distance_remaining_km r < 4000)%Q
  /\ (0 < Train.vehicle_speed_kmph r)%Q
  /\ (Train.vehicle_speed_kmph r <= 80)%Q
  /\ Train.weather r ∈ Train.weather_conditions
  /\ Train.traffic_level r ∈ Train.traffic_levels
  /\ Train.origin r ∈ Train.cities
  /\ Train.destination r ∈ Train.cities.

(** The observation of the first row of the sample history, as the
    pipeline reads it back from the database. *)
Definition sample_row_shipment : gmap string value :=
  {[ "shipment_id" := VStr "0";
     "distance_remaining_km" := VNum 1200;
     "vehicle_speed_kmph" := VNum 55;
     "weather" := VStr "Rain";
     "traffic_level" := VStr "Light";
     "timestamp" := VTime 1705329000 ]}.

(** A bundle that has lost its feature columns. *)
Definition partial_bundle : ModelData :=
  {| md_model := Some (Some (stub_model (9#10)));
     md_scaler := Some (Some stub_scaler);
     md_feature_encoders := Some ∅;
     md_feature_columns := None;
     md_trained_at := Some 1705329000;
     md_version := Some "1.0" |}.

(** The world after a first alert for shipment S1. *)
Definition alerted_world : World :=
  (@Alerting.trigger_one sample_runtime sample_manager (7#10) 0
     (sample_prediction (75#100)) empty_world).2.

(** A predictor whose weather encoder only knows "Clear". *)
Definition fair_weather_predictor : Train.DelayPredictor :=
  Train.mk None {[ "weather" := LabelEncoder.fit ["Clear"] ]} None
           (Train.feature_columns Train.new).

(** * Properties *)

(** ** Numbers *)

Lemma Qltb_true a b : Qltb a b = true <-> (a < b)%Q.
Proof.
  unfold Qltb. rewrite negb_true_iff. split.
  - intros Hf. apply Qnot_le_lt. intros Hle.
    apply Qle_bool_iff in Hle. congruence.
  - intros Hlt. destruct (Qle_bool b a) eqn:E; [|reflexivity].
    apply Qle_bool_iff in E. exfalso. exact (Qlt_not_le _ _ Hlt E).
Qed.

Lemma Qltb_false a b : Qltb a b = false <-> (b <= a)%Q.
Proof.
  unfold Qltb. rewrite negb_false_iff. apply Qle_bool_iff.
Qed.

Lemma Qle_bool_false a b : Qle_bool a b = false <-> (b < a)%Q.
Proof.
  rewrite <- Qltb_true. unfold Qltb. now rewrite negb_true_iff.
Qed.

Lemma py_int_nonneg x : (0 <= x)%Q -> py_int x = Qfloor x.
Proof.
  destruct x as [n d]. unfold Qle, py_int, Qfloor. simpl. intros Hn.
  apply Z.quot_div_nonneg; lia.
Qed.

Lemma py_int_neg x : (x < 0)%Q -> py_int x = Qceiling x.
Proof.
  destruct x as [n d]. unfold Qlt, py_int, Qceiling, Qfloor, Qopp. simpl.
  intros Hn. rewrite <- (Z.opp_involutive n) at 1.
  rewrite Z.quot_opp_l by lia. f_equal.
  apply Z.quot_div_nonneg; lia.
Qed.


Lemma py_int_sign x : (0 <= x)%Q -> 0 <= py_int x.
Proof.
  intros Hx. rewrite py_int_nonneg by assumption.
  change 0 with (Qfloor 0). now apply Qfloor_resp_le.
Qed.

Lemma py_min_nonneg a b : (0 <= a)%Q -> (0 <= b)%Q -> (0 <= py_min a b)%Q.
Proof. unfold py_min. now destruct (Qltb b a). Qed.


(** ** The batch loop *)

Section Batch.
Context `{Runtime}.

Lemma get_default_lookup {A} (d : gmap string A) k dflt v :
  d !! k = Some v -> get_default d k dflt = v.
Proof. unfold get_default. now intros ->. Qed.

Lemma degraded_is_degraded sid t e : is_degraded (Predict.degraded sid t e) e.
Proof. repeat split. Qed.

Lemma predict_body_shipment_id self clf shipment w p r w' :
  Predict.predict_body self clf shipment w = (Ok (p, r), w') ->
  shipment_id r = get_default shipment "shipment_id" VNone
  /\ error r = None
  /\ delay_probability r = p
  /\ risk_level r = Predict.categorize p
  /\ Predict.estimate_delay p shipment = Ok (estimated_delay_minutes r).
Proof.
  unfold Predict.predict_body, bind, lift, raise, ret, now.
  destruct (Predict.prepare_features self shipment w) as [[features|e] w1];
    [|discriminate].
  destruct (Predict.scaler self) as [sc|]; [|discriminate].
  destruct (sc features) as [scaled|e]; [|discriminate].
  destruct (clf scaled) as [q|e]; [|discriminate].
  destruct (Predict.estimate_delay q shipment) as [est|e] eqn:Hest;
    [|discriminate].
  intros [= <- <- <-]. simpl. rewrite Hest. auto.
Qed.

Lemma predict_item_spec self results shipment w :
  exists r w',
    Predict.predict_item self results shipment w = (Ok (results ++ [r])%list, w')
    /\ item_result self shipment w r.
Proof.
  unfold Predict.predict_item, Predict.predict_delay, item_result,
    try_except, bind, raise, ret, now.
  destruct (Predict.model self) as [clf|]; simpl.
  - destruct (Predict.predict_body self clf shipment w) as [[[p r]|e] w1] eqn:Hb;
      simpl.
    + eexists _, _. split; [reflexivity|]. split; [reflexivity|].
      intros v Hv. apply predict_body_shipment_id in Hb as [-> _].
      now apply get_default_lookup.
    + eexists _, _. split; [reflexivity|]. split.
      * apply degraded_is_degraded.
      * intros v Hv. simpl. now apply get_default_lookup.
  - eexists _, _. split; [reflexivity|]. split.
    + apply degraded_is_degraded.
    + intros v Hv. simpl. now apply get_default_lookup.
Qed.

Lemma predict_loop_spec self shipments : forall results w,
  exists rs w',
    Predict.predict_loop self results shipments w = (Ok (results ++ rs)%list, w')
    /\ length rs = length shipments
    /\ forall i shipment, shipments !! i = Some shipment ->
         exists r wi, rs !! i = Some r /\ item_result self shipment wi r.
Proof.
  induction shipments as [|shipment rest IH]; intros results w.
  - exists [], w. simpl. rewrite app_nil_r. repeat split.
    intros i s Hi. discriminate.
  - destruct (predict_item_spec self results shipment w) as (r & w1 & Hitem & Hr).
    destruct (IH (results ++ [r])%list w1) as (rs & w' & Hloop & Hlen & Hnth).
    exists (r :: rs), w'. split; [|split].
    + simpl. unfold bind. rewrite Hitem, Hloop. now rewrite <- app_assoc.
    + simpl. now rewrite Hlen.
    + intros [|i] s Hi; simpl in Hi.
      * injection Hi as <-. now exists r, w.
      * now apply Hnth.
Qed.

(** C1. [predict_batch] always returns, whatever the engine and the
    observations: one result per observation, at the position of the
    observation and with its shipment identifier.  The result of an
    observation whose prediction succeeds is that prediction; an
    observation whose prediction raises gets a degraded result
    (probability 1/2, Medium, 60 minutes, the error field set), and the
    observations after it are still processed. *)
Theorem predict_batch_isolates_failures
  (self : Predict.DelayPredictor) (shipments : list (gmap string value))
  (w : World) :
  exists results w',
    Predict.predict_batch self shipments w = (Ok results, w')
    /\ length results = length shipments
    /\ forall i shipment, shipments !! i = Some shipment ->
         exists r wi, results !! i = Some r /\ item_result self shipment wi r.
Proof.
  unfold Predict.predict_batch.
  destruct (predict_loop_spec self shipments [] w) as (rs & w' & Hloop & Hlen & Hnth).
  exists rs, w'. now rewrite Hloop.
Qed.

End Batch.

(** ** Single predictions *)

Section Engine.
Context `{Runtime}.

Lemma predict_delay_inv self shipment w p r w' :
  Predict.predict_delay self shipment w = (Ok (p, r), w') ->
  exists clf, Predict.model self = Some clf
    /\ (Predict.predict_body self clf shipment w = (Ok (p, r), w')
        \/ exists e w1,
             Predict.predict_body self clf shipment w = (Raise e, w1)
             /\ p = 1#2
             /\ r = Predict.degraded (get_default shipment "shipment_id" VNone)
                                     (wall_clock (ticks w1)) e).
Proof.
  unfold Predict.predict_delay.
  destruct (Predict.model self) as [clf|]; [|discriminate].
  unfold try_except.
  destruct (Predict.predict_body self clf shipment w) as [[[p0 r0]|e] w1] eqn:Hb.
  - intros [= <- <- <-]. exists clf. split; [reflexivity|]. now left.
  - unfold bind, now, ret. intros [= <- <- <-].
    exists clf. split; [reflexivity|]. right. now exists e, w1.
Qed.



Lemma estimate_delay_low p shipment est :
  Predict.estimate_delay p shipment = Ok est -> (p <= 1#2)%Q -> est = 0.
Proof.
  unfold Predict.estimate_delay. intros Hest Hp.
  apply Qltb_false in Hp. rewrite Hp in Hest. congruence.
Qed.


Lemma categorize_high p : Predict.categorize p = High <-> (7#10 <= p)%Q.
Proof.
  unfold Predict.categorize.
  destruct (Qle_bool (7#10) p) eqn:E7.
  - apply Qle_bool_iff in E7. tauto.
  - apply Qle_bool_false in E7. split.
    + destruct (Qle_bool (4#10) p); discriminate.
    + intros Hle. exfalso. exact (Qlt_not_le _ _ E7 Hle).
Qed.

Lemma categorize_medium p :
  Predict.categorize p = Medium <-> (4#10 <= p)%Q /\ (p < 7#10)%Q.
Proof.
  unfold Predict.categorize.
  destruct (Qle_bool (7#10) p) eqn:E7.
  - apply Qle_bool_iff in E7. split; [discriminate|].
    intros [_ Hlt]. exfalso. exact (Qlt_not_le _ _ Hlt E7).
  - apply Qle_bool_false in E7.
    destruct (Qle_bool (4#10) p) eqn:E4.
    + apply Qle_bool_iff in E4. tauto.
    + apply Qle_bool_false in E4. split; [discriminate|].
      intros [Hle _]. exfalso. exact (Qlt_not_le _ _ E4 Hle).
Qed.

Lemma categorize_low p : Predict.categorize p = Low <-> (p < 4#10)%Q.
Proof.
  unfold Predict.categorize.
  destruct (Qle_bool (7#10) p) eqn:E7.
  - apply Qle_bool_iff in E7. split; [discriminate|].
    intros Hlt. exfalso. apply (Qlt_not_le _ _ Hlt).
    apply Qle_trans with (7#10); [discriminate | assumption].
  - destruct (Qle_bool (4#10) p) eqn:E4.
    + apply Qle_bool_iff in E4. split; [discriminate|].
      intros Hlt. exfalso. exact (Qlt_not_le _ _ Hlt E4).
    + apply Qle_bool_false in E4. tauto.
Qed.

(** A result of the engine with no error field is the result of the
    [try] block of [predict_delay] on some shipment. *)
Lemma produced_ok self r :
  produced self r -> error r = None ->
  exists clf shipment w p w',
    Predict.predict_body self clf shipment w = (Ok (p, r), w').
Proof.
  intros [(shipment & w & p & w' & Hp) | (shipments & w & results & w' & Hb & Hin)]
    Herr.
  - apply predict_delay_inv in Hp as (clf & _ & [Hbody | (e & w1 & _ & _ & ->)]).
    + now exists clf, shipment, w, p, w'.
    + discriminate.
  - unfold Predict.predict_batch in Hb.
    destruct (predict_loop_spec self shipments [] w) as (rs & w'' & Hloop & Hlen & Hnth).
    rewrite Hloop in Hb. injection Hb as <- <-.
    apply list_elem_of_lookup in Hin as [i Hi].
    destruct (lookup_lt_is_Some_2 shipments i) as [shipment Hs].
    { rewrite <- Hlen. now apply lookup_lt_Some in Hi. }
    destruct (Hnth i shipment Hs) as (r' & wi & Hr' & [Hres _]).
    simpl in Hi. rewrite Hi in Hr'. injection Hr' as <-.
    destruct (Predict.model self) as [clf|].
    + destruct (Predict.predict_body self clf shipment wi) as [[[p r0]|e] w1] eqn:Hbody;
        simpl in Hres.
      * subst r0. now exists clf, shipment, wi, p, w1.
      * destruct Hres as (_ & _ & _ & He). congruence.
    + destruct Hres as (_ & _ & _ & He). congruence.
Qed.

(** A result of the engine that has an error field is degraded. *)
Lemma produced_error self r :
  produced self r -> error r <> None ->
  delay_probability r = 1#2 /\ risk_level r = Medium
  /\ estimated_delay_minutes r = 60.
Proof.
  intros [(shipment & w & p & w' & Hp) | (shipments & w & results & w' & Hb & Hin)]
    Herr.
  - apply predict_delay_inv in Hp as (clf & _ & [Hbody | (e & w1 & _ & _ & ->)]).
    + apply predict_body_shipment_id in Hbody as (_ & He & _). congruence.
    + repeat split.
  - unfold Predict.predict_batch in Hb.
    destruct (predict_loop_spec self shipments [] w) as (rs & w'' & Hloop & Hlen & Hnth).
    rewrite Hloop in Hb. injection Hb as <- <-.
    apply list_elem_of_lookup in Hin as [i Hi].
    destruct (lookup_lt_is_Some_2 shipments i) as [shipment Hs].
    { rewrite <- Hlen. now apply lookup_lt_Some in Hi. }
    destruct (Hnth i shipment Hs) as (r' & wi & Hr' & [Hres _]).
    simpl in Hi. rewrite Hi in Hr'. injection Hr' as <-.
    destruct (Predict.model self) as [clf|].
    + destruct (Predict.predict_body self clf shipment wi) as [[[p r0]|e] w1] eqn:Hbody;
        simpl in Hres.
      * subst r0. apply predict_body_shipment_id in Hbody as (_ & He & _).
        congruence.
      * destruct Hres as (Hp & Hr & He & _). auto.
    + destruct Hres as (Hp & Hr & He & _). auto.
Qed.

End Engine.

(** ** An engine without a model *)

Section Unloaded.
Context `{Runtime}.

(** C2 (amended).  On an engine with no model, [predict_delay] raises
    the "model not loaded" error to its caller and does nothing else;
    [predict_batch] catches that error for each observation and returns
    one degraded result per observation; and [load_model] answers a
    failed read of the artifact with [False], leaving the engine as it
    was. *)
Theorem unloaded_engine (self : Predict.DelayPredictor) :
  Predict.model self = None ->
  (forall shipment w,
      Predict.predict_delay self shipment w = (Raise Predict.not_loaded, w))
  /\ (forall shipments w,
        exists results w',
          Predict.predict_batch self shipments w = (Ok results, w')
          /\ length results = length shipments
          /\ Forall (fun r => is_degraded r Predict.not_loaded) results)
  /\ (forall e, Predict.load_model self (Raise e) = (self, false)).
Proof.
  intros Hnone. split; [|split].
  - intros shipment w. unfold Predict.predict_delay. now rewrite Hnone.
  - intros shipments w. unfold Predict.predict_batch.
    destruct (predict_loop_spec self shipments [] w)
      as (rs & w' & Hloop & Hlen & Hnth).
    exists rs, w'. split; [exact Hloop|]. split; [exact Hlen|].
    apply Forall_lookup. intros i r Hi.
    destruct (lookup_lt_is_Some_2 shipments i) as [shipment Hs].
    { rewrite <- Hlen. now apply lookup_lt_Some in Hi. }
    destruct (Hnth i shipment Hs) as (r' & wi & Hr' & [Hres _]).
    rewrite Hi in Hr'. injection Hr' as <-.
    now rewrite Hnone in Hres.
  - reflexivity.
Qed.

End Unloaded.

(** The engine built when nothing exists at the model path has no model. *)
Lemma unloaded_engine_witness :
  Predict.model (Predict.new None) = None
  /\ (forall shipment w,
        @Predict.predict_delay sample_runtime (Predict.new None) shipment w
        = (Raise Predict.not_loaded, w)).
Proof.
  split; [reflexivity|].
  apply (@unloaded_engine sample_runtime (Predict.new None)). reflexivity.
Defined.

(** C2, as stated, fails: a batch on an engine with no model returns a
    degraded result for its observation instead of raising. *)
Lemma batch_without_model_returns_degraded :
  (@Predict.predict_batch sample_runtime (Predict.new None)
     [sample_shipment 1000] empty_world).1
  = Ok [Predict.degraded (VStr "TEST001") 1705329000 Predict.not_loaded].
Proof. vm_compute. reflexivity. Qed.

(** An artifact that cannot be read leaves an engine that answers every
    batch with degraded results. *)
Lemma unreadable_artifact_is_swallowed :
  Predict.model (Predict.new (Some (Raise (LibraryError "corrupt file")))) = None.
Proof. reflexivity. Qed.

(** ** The estimated delay and the risk tier *)

Section Estimates.
Context `{Runtime}.

(** C3 (amended).  A result of the engine that carries no error field has
    an estimated delay of 0 whenever its probability is at most 1/2; a
    result that carries an error field has probability 1/2 and an
    estimated delay of 60 minutes. *)
Theorem zero_estimate_at_or_below_half
  (self : Predict.DelayPredictor) (r : PredictionResult) :
  produced self r ->
  (error r = None ->
   (delay_probability r <= 1#2)%Q -> estimated_delay_minutes r = 0)
  /\ (error r <> None ->
      delay_probability r = 1#2 /\ estimated_delay_minutes r = 60).
Proof.
  intros Hprod. split.
  - intros Herr Hp.
    destruct (produced_ok self r Hprod Herr) as (clf & shipment & w & p & w' & Hbody).
    apply predict_body_shipment_id in Hbody as (_ & _ & Hpr & _ & Hest).
    rewrite <- Hpr in Hest. exact (estimate_delay_low _ _ _ Hest Hp).
  - intros Herr. destruct (produced_error self r Hprod Herr) as (Hp & _ & He).
    now split.
Qed.


(** C6.  A successful prediction is High exactly when its probability is
    at least 0.7, Medium exactly when it is at least 0.4 and below 0.7,
    Low exactly when it is below 0.4. *)
Theorem risk_level_thresholds
  (self : Predict.DelayPredictor) (shipment : gmap string value)
  (w w' : World) (p : Q) (r : PredictionResult) :
  Predict.predict_delay self shipment w = (Ok (p, r), w') ->
  error r = None ->
  delay_probability r = p
  /\ (risk_level r = High <-> (7#10 <= p)%Q)
  /\ (risk_level r = Medium <-> (4#10 <= p)%Q /\ (p < 7#10)%Q)
  /\ (risk_level r = Low <-> (p < 4#10)%Q).
Proof.
  intros Hpred Herr.
  apply predict_delay_inv in Hpred as (clf & _ & [Hbody | (e & w1 & _ & _ & ->)]);
    [|discriminate].
  apply predict_body_shipment_id in Hbody as (_ & _ & Hp & -> & _).
  split; [exact Hp|].
  split; [apply categorize_high|].
  split; [apply categorize_medium | apply categorize_low].
Qed.

End Estimates.

(** A prediction with probability 0.3 has an estimated delay of 0. *)
Lemma zero_estimate_witness :
  exists r,
    returned (@Predict.predict_delay sample_runtime (sample_predictor (3#10))
                (sample_shipment 1000)) = Some (3#10, r)
    /\ error r = None
    /\ estimated_delay_minutes r = 0.
Proof.
  eexists. split; [vm_compute; reflexivity|]. split; [reflexivity|].
  apply (@zero_estimate_at_or_below_half sample_runtime (sample_predictor (3#10))).
  - left. eexists (sample_shipment 1000), empty_world, _, _.
    vm_compute. reflexivity.
  - reflexivity.
  - vm_compute. discriminate.
Defined.

(** C3, as stated, fails on a degraded result: an observation without a
    distance makes the prediction fail, and the result has probability
    1/2 with an estimated delay of 60 minutes. *)
Lemma degraded_result_keeps_sixty :
  returned (@Predict.predict_delay sample_runtime (sample_predictor (9#10))
              bare_shipment)
  = Some (1#2, Predict.degraded (VStr "TEST002") 1705329000
                 (KeyError "distance_remaining_km"))
  /\ (delay_probability
        (Predict.degraded (VStr "TEST002") 1705329000
           (KeyError "distance_remaining_km")) <= 1#2)%Q
  /\ estimated_delay_minutes
       (Predict.degraded (VStr "TEST002") 1705329000
          (KeyError "distance_remaining_km")) = 60.
Proof.
  split; [vm_compute; reflexivity|]. split; [|reflexivity].
  vm_compute. discriminate.
Qed.



(** Probability exactly 0.7 is High. *)
Lemma risk_level_witness :
  exists r,
    returned (@Predict.predict_delay sample_runtime (sample_predictor (7#10))
                (sample_shipment 1000)) = Some (7#10, r)
    /\ risk_level r = High.
Proof.
  eexists. split; [vm_compute; reflexivity|].
  apply (@risk_level_thresholds sample_runtime (sample_predictor (7#10))
           (sample_shipment 1000) empty_world _ (7#10) _ eq_refl eq_refl).
  vm_compute. discriminate.
Defined.

(** A shipment 2800 km away at 45.5 km/h in rain and heavy traffic,
    against a classifier that answers 0.7: High, 168 minutes, and an
    alert of severity Medium. *)
Lemma end_to_end_example :
  exists r,
    returned (@Predict.predict_delay sample_runtime (sample_predictor (7#10))
                (<["vehicle_speed_kmph" := VNum (91#2)]> (sample_shipment 2800)))
    = Some (7#10, r)
    /\ risk_level r = High
    /\ estimated_delay_minutes r = 168
    /\ Predict.should_trigger_alert r (7#10) = true
    /\ Alerting.ad_severity (Alerting.alert_data_of r) = "Medium".
Proof. eexists. split; [vm_compute; reflexivity|]. repeat split. Qed.

(** Probability exactly 0.4 is Medium, and 0.1 is Low. *)
Lemma risk_level_boundaries :
  Predict.categorize (7#10) = High
  /\ Predict.categorize (75#100) = High
  /\ Predict.categorize (4#10) = Medium
  /\ Predict.categorize (1#2) = Medium
  /\ Predict.categorize (1#10) = Low.
Proof. repeat split. Qed.

(** ** The alert decision *)

Section Alerts.
Context `{Runtime}.


Lemma existsb_false_forall (f : AlertRow -> bool) rows :
  existsb f rows = false <-> forall r, r ∈ rows -> f r = false.
Proof.
  induction rows as [|r0 rows IH]; simpl.
  - split; [|reflexivity]. intros _ r Hr. inversion Hr.
  - rewrite orb_false_iff, IH. split.
    + intros [H0 Hall] r Hr. inversion Hr; subst; auto.
    + intros Hall. split; [|intros r Hr]; apply Hall; constructor.
      assumption.
Qed.





Lemma create_alert_spec am url alert_data sid w :
  Alerting.database_url am = Some url ->
  Alerting.ad_shipment_id alert_data = VStr sid ->
  let t := wall_clock (ticks w) in
  let atype := Alerting.ad_alert_type alert_data in
  Alerting.create_alert am alert_data w =
    if existsb (Alerting.similar_active sid atype t) (alerts w)
    then (Ok false, mkWorld (S (ticks w)) (draws w) (alerts w))
    else (Ok true,
          mkWorld (S (ticks w)) (draws w)
            (alerts w ++ [Alerting.new_row (alerts w) sid t alert_data])).
Proof.
  intros Hurl Hsid t atype. unfold Alerting.create_alert.
  rewrite Hurl. unfold try_except, bind, now, lift, Alerting.get_rows.
  rewrite Hsid. simpl. fold t. fold atype.
  destruct (existsb (Alerting.similar_active sid atype t) (alerts w));
    reflexivity.
Qed.




End Alerts.


(** Two triggers for shipment S1 a minute apart: the second is
    suppressed.  Probability 0.65 triggers nothing. *)
Lemma second_trigger_suppressed :
  (returned (@Alerting.trigger_alerts sample_runtime (Some "postgresql://freight")
               None [sample_prediction (75#100); sample_prediction (85#100)])
   = Some 1%nat)
  /\ (returned (@Alerting.trigger_alerts sample_runtime
                  (Some "postgresql://freight") None [sample_prediction (65#100)])
      = Some 0%nat).
Proof. split; vm_compute; reflexivity. Qed.

(** Once the first alert is resolved, or an hour has gone by, a new
    trigger creates a new alert. *)
Lemma trigger_after_resolution_or_window :
  let first :=
    (@Alerting.trigger_one sample_runtime sample_manager (7#10) 0
       (sample_prediction (75#100)) empty_world).2 in
  let resolved := (@Alerting.resolve_alert sample_runtime sample_manager 1 first).2 in
  let later := mkWorld 61 0 (alerts first) in
  (@Alerting.trigger_one sample_runtime sample_manager (7#10) 0
     (sample_prediction (75#100)) resolved).1 = Ok 1%nat
  /\ (@Alerting.trigger_one sample_runtime sample_manager (7#10) 0
        (sample_prediction (75#100)) later).1 = Ok 1%nat
  /\ (@Alerting.trigger_one sample_runtime sample_manager (7#10) 0
        (sample_prediction (75#100)) first).1 = Ok 0%nat.
Proof. repeat split; vm_compute; reflexivity. Qed.

(** The severity of an alert: High from 0.8, Medium below. *)
Lemma severity_tiers :
  Alerting.ad_severity (Alerting.alert_data_of (sample_prediction (75#100))) = "Medium"
  /\ Alerting.ad_severity (Alerting.alert_data_of (sample_prediction (85#100))) = "High"
  /\ Predict.should_trigger_alert (sample_prediction (75#100)) (7#10) = true
  /\ Predict.should_trigger_alert (sample_prediction (65#100)) (7#10) = false.
Proof. repeat split. Qed.

(** ** Categorical encoding *)

Section Encoding.

Lemma contains_elem_of enc s :
  LabelEncoder.contains enc (CStr s) = true <-> s ∈ LabelEncoder.classes_ enc.
Proof.
  simpl. induction (LabelEncoder.classes_ enc) as [|x l IH]; simpl.
  - split; [discriminate|]. intros Hin. inversion Hin.
  - rewrite orb_true_iff, IH, String.eqb_eq, elem_of_cons. tauto.
Qed.

(** [index_of] gives the first position of the label. *)
Lemma index_of_Some s l i :
  LabelEncoder.index_of s l = Some i <->
  l !! i = Some s /\ forall j, (j < i)%nat -> l !! j <> Some s.
Proof.
  revert i. induction l as [|x l IH]; intros i; simpl.
  - split; [discriminate|]. intros [Hl _]. discriminate.
  - destruct (String.eqb s x) eqn:E.
    + apply String.eqb_eq in E. subst x. split.
      * intros [= <-]. split; [reflexivity|]. intros j Hj. lia.
      * intros [Hi Hfirst]. destruct i as [|i]; [reflexivity|].
        exfalso. apply (Hfirst 0%nat); [lia | reflexivity].
    + apply String.eqb_neq in E.
      destruct (LabelEncoder.index_of s l) as [k|] eqn:Hk; simpl.
      * split.
        -- intros [= <-]. destruct (proj1 (IH k) eq_refl) as [Hl Hfirst].
           split; [exact Hl|].
           intros [|j] Hj; simpl; [congruence|]. apply Hfirst. lia.
        -- intros [Hi Hfirst]. destruct i as [|i]; simpl in Hi; [congruence|].
           f_equal. enough (Some k = Some i) by congruence.
           apply IH. split; [exact Hi|].
           intros j Hj. apply (Hfirst (S j)). lia.
      * split; [discriminate|].
        intros [Hi Hfirst]. destruct i as [|i]; simpl in Hi; [congruence|].
        exfalso. enough (None = Some i) by discriminate.
        apply IH. split; [exact Hi|].
        intros j Hj. apply (Hfirst (S j)). lia.
Qed.

Lemma index_of_None s l : LabelEncoder.index_of s l = None <-> s ∉ l.
Proof.
  induction l as [|x l IH]; simpl.
  - split; [|reflexivity]. intros _ Hin. inversion Hin.
  - rewrite not_elem_of_cons. destruct (String.eqb s x) eqn:E.
    + apply String.eqb_eq in E. split; [discriminate|]. tauto.
    + apply String.eqb_neq in E.
      destruct (LabelEncoder.index_of s l); simpl.
      * split; [discriminate|]. intros [_ Hn]. now apply IH in Hn.
      * split; [|reflexivity]. intros _. split; [exact E|]. now apply IH.
Qed.

(** The lambda of the encoding never raises. *)
Lemma encode_label_total enc x :
  exists c, Predict.encode_label enc x = Ok c
    /\ (LabelEncoder.contains enc x = false -> c = CNum 0)
    /\ (forall s, x = CStr s -> s ∈ LabelEncoder.classes_ enc ->
        exists i, LabelEncoder.index_of s (LabelEncoder.classes_ enc) = Some i
                  /\ c = CNum (inject_Z (Z.of_nat i))).
Proof.
  unfold Predict.encode_label.
  destruct (LabelEncoder.contains enc x) eqn:Hc.
  - destruct x as [|q|s|t| | |b]; try discriminate.
    apply contains_elem_of in Hc. simpl.
    destruct (LabelEncoder.index_of s (LabelEncoder.classes_ enc)) as [i|] eqn:Hi.
    + eexists. split; [reflexivity|]. split; [discriminate|].
      intros s' [= <-] _. now exists i.
    + apply index_of_None in Hi. contradiction.
  - eexists. split; [reflexivity|]. split; [reflexivity|].
    intros s -> Hin. apply contains_elem_of in Hin. congruence.
Qed.

Lemma encode_column_ok self col df :
  exists c, Predict.encode_column self col df
            = Ok (<[(col ++ "_encoded")%string := c]> df).
Proof.
  unfold Predict.encode_column.
  destruct (df !! col) as [x|]; [|now eexists].
  destruct (Predict.feature_encoders self !! col) as [enc|]; [|now eexists].
  destruct (encode_label_total enc x) as (c & -> & _). now exists c.
Qed.

(** C7 (amended).  Encoding a categorical column never raises.  A value of
    the trained domain gets its position in the encoder's list of
    classes, which is 0 for the first class; any other value, a missing
    field or a missing encoder gets 0. *)
Theorem categorical_encoding
  (self : Predict.DelayPredictor) (col : string) (df : gmap string cell) :
  exists c,
    Predict.encode_column self col df
    = Ok (<[(col ++ "_encoded")%string := c]> df)
    /\ (forall enc s,
          Predict.feature_encoders self !! col = Some enc ->
          df !! col = Some (CStr s) ->
          s ∈ LabelEncoder.classes_ enc ->
          exists i,
            LabelEncoder.classes_ enc !! i = Some s
            /\ (forall j, (j < i)%nat -> LabelEncoder.classes_ enc !! j <> Some s)
            /\ c = CNum (inject_Z (Z.of_nat i)))
    /\ ((forall enc s,
           Predict.feature_encoders self !! col = Some enc ->
           df !! col = Some (CStr s) ->
           s ∉ LabelEncoder.classes_ enc) ->
        c = CNum 0).
Proof.
  unfold Predict.encode_column.
  destruct (df !! col) as [x|] eqn:Hx.
  - destruct (Predict.feature_encoders self !! col) as [enc|] eqn:Henc.
    + destruct (encode_label_total enc x) as (c & -> & Hout & Hin).
      exists c. split; [reflexivity|]. split.
      * intros enc' s [= <-] [= ->] Hs.
        destruct (Hin s eq_refl Hs) as (i & Hi & ->).
        apply index_of_Some in Hi as [Hl Hfirst]. now exists i.
      * intros Hnot. apply Hout.
        destruct x as [|q|s|t| | |b]; try reflexivity.
        destruct (LabelEncoder.contains enc (CStr s)) eqn:Hc; [|reflexivity].
        apply contains_elem_of in Hc. exfalso.
        now apply (Hnot enc s).
    + eexists. split; [reflexivity|]. split; [|reflexivity].
      intros enc s [=].
  - eexists. split; [reflexivity|]. split; [|reflexivity].
    destruct (Predict.feature_encoders self !! col); intros enc s _ [=].
Qed.

End Encoding.

(** An unseen weather encodes to 0, and "Rain" to its position 1. *)
Lemma categorical_encoding_witness :
  Predict.encode_column (sample_predictor (7#10)) "weather"
    {[ "weather" := CStr "Hail" ]}
  = Ok (<["weather_encoded" := CNum 0]> {[ "weather" := CStr "Hail" ]})
  /\ Predict.encode_column (sample_predictor (7#10)) "weather"
       {[ "weather" := CStr "Rain" ]}
     = Ok (<["weather_encoded" := CNum 1]> {[ "weather" := CStr "Rain" ]}).
Proof.
  split.
  - destruct (categorical_encoding (sample_predictor (7#10)) "weather"
                {[ "weather" := CStr "Hail" ]}) as (c & Hrun & _ & Hout).
    rewrite Hrun, Hout; [reflexivity|].
    intros enc s Henc Hs. vm_compute in Henc, Hs.
    injection Henc as <-. injection Hs as <-.
    intros Hin. apply contains_elem_of in Hin. vm_compute in Hin. discriminate.
  - vm_compute. reflexivity.
Defined.

(** C7, as stated, fails: code 0 is not reserved.  In the encoder fitted
    on Rain, Clear and Snow the class "Clear" is in the domain and
    encodes to 0, like a value that was never seen. *)
Lemma first_class_encodes_to_zero :
  LabelEncoder.classes_ (LabelEncoder.fit ["Rain"; "Clear"; "Snow"])
  = ["Clear"; "Rain"; "Snow"]
  /\ LabelEncoder.contains (LabelEncoder.fit ["Rain"; "Clear"; "Snow"])
       (CStr "Clear") = true
  /\ Predict.encode_label (LabelEncoder.fit ["Rain"; "Clear"; "Snow"])
       (CStr "Clear") = Ok (CNum 0)
  /\ Predict.encode_label (LabelEncoder.fit ["Rain"; "Clear"; "Snow"])
       (CStr "Hail") = Ok (CNum 0).
Proof. repeat split. Qed.

(** ** The feature vector *)

(** The two rounds of the encoding loop: each leaves the frame with one
    more column. *)
Ltac encode_both self :=
  let c1 := fresh "code" in
  let c2 := fresh "code" in
  match goal with
  | |- context [Predict.encode_column self "weather" ?d] =>
      destruct (encode_column_ok self "weather" d) as [c1 ->]
  end;
  match goal with
  | |- context [Predict.encode_column self "traffic_level" ?d] =>
      destruct (encode_column_ok self "traffic_level" d) as [c2 ->]
  end;
  change ("weather" ++ "_encoded") with "weather_encoded";
  change ("traffic_level" ++ "_encoded") with "traffic_level_encoded".

Section Features.
Context `{Runtime}.

Lemma fill_missing_keeps columns : forall df c x,
  df !! c = Some x -> Predict.fill_missing columns df !! c = Some x.
Proof.
  unfold Predict.fill_missing.
  induction columns as [|a columns IH]; intros df c x Hc; simpl; [exact Hc|].
  apply IH. destruct (df !! a) eqn:Ha; [exact Hc|].
  rewrite lookup_insert_ne; [exact Hc|]. congruence.
Qed.

Lemma fill_missing_fills columns : forall df c,
  df !! c = None -> c ∈ columns ->
  Predict.fill_missing columns df !! c = Some (CNum 0).
Proof.
  unfold Predict.fill_missing.
  induction columns as [|a columns IH]; intros df c Hc Hin; simpl.
  - inversion Hin.
  - destruct (decide (c = a)) as [->|Hne].
    + rewrite Hc. apply (fill_missing_keeps columns). apply lookup_insert_eq.
    + apply elem_of_cons in Hin as [Heq|Hin]; [contradiction|].
      apply IH; [|exact Hin].
      destruct (df !! a); [exact Hc|].
      rewrite lookup_insert_ne; [exact Hc|]. congruence.
Qed.

(** After the fill, a schema column holds what the frame had, or 0. *)
Lemma fill_missing_lookup columns df c :
  c ∈ columns ->
  Predict.fill_missing columns df !! c = Some (default (CNum 0) (df !! c)).
Proof.
  intros Hin. destruct (df !! c) as [x|] eqn:Hc; simpl.
  - now apply fill_missing_keeps.
  - now apply fill_missing_fills.
Qed.

Lemma select_inv df columns : forall v,
  select df columns = Ok v ->
  length v = length columns
  /\ forall i c, columns !! i = Some c -> v !! i = df !! c.
Proof.
  induction columns as [|a columns IH]; intros v; simpl.
  - intros [= <-]. split; [reflexivity|]. intros i c Hi. discriminate.
  - unfold getitem. destruct (df !! a) as [x|] eqn:Ha; [|discriminate].
    destruct (select df columns) as [xs|e]; [|discriminate].
    intros [= <-]. destruct (IH xs eq_refl) as [Hlen Hnth]. split.
    + simpl. now rewrite Hlen.
    + intros [|i] c Hi; simpl in *.
      * injection Hi as <-. now rewrite Ha.
      * now apply Hnth.
Qed.

Lemma select_total df columns :
  (forall c, c ∈ columns -> is_Some (df !! c)) ->
  exists v, select df columns = Ok v.
Proof.
  induction columns as [|a columns IH]; intros Hall; simpl.
  - now eexists.
  - unfold getitem. destruct (Hall a) as [x ->]; [constructor|].
    destruct IH as [xs ->]; [|now eexists].
    intros c Hc. apply Hall. now constructor.
Qed.


(** [prepare_features] returns on an observation that has a distance,
    a speed, and a timestamp pandas can read (or none). *)
Lemma prepare_features_returns self shipment w :
  is_Some (shipment !! "distance_remaining_km") ->
  is_Some (shipment !! "vehicle_speed_kmph") ->
  (forall v, shipment !! "timestamp" = Some v ->
     exists ts, to_datetime (cell_of_value v) = Ok ts) ->
  exists v w', Predict.prepare_features self shipment w = (Ok v, w').
Proof.
  intros [vd Hd] [vs Hs] Hts.
  assert (exists df w', Predict.build_frame self shipment w = (Ok df, w'))
    as (df & w' & Hframe).
  { unfold Predict.build_frame, bind, lift, getitem.
    rewrite lookup_fmap, Hd. simpl.
    rewrite lookup_insert_ne by discriminate. rewrite lookup_fmap, Hs. simpl.
    encode_both self.
    simpl. rewrite !lookup_insert_ne by discriminate. rewrite lookup_fmap.
    destruct (shipment !! "timestamp") as [v|] eqn:Hv; simpl.
    - destruct (Hts v eq_refl) as [ts ->]. now eexists _, _.
    - unfold now, ret. now eexists _, _. }
  unfold Predict.prepare_features, bind. rewrite Hframe. unfold lift.
  destruct (select_total (Predict.fill_missing (Predict.feature_columns self) df)
              (Predict.feature_columns self)) as [v Hv].
  { intros c Hc. rewrite (fill_missing_lookup _ _ _ Hc). eauto. }
  rewrite Hv. now exists v, w'.
Qed.

Lemma prepare_features_fst self shipment w :
  (Predict.prepare_features self shipment w).1 =
  match (Predict.build_frame self shipment w).1 with
  | Ok df =>
      select (Predict.fill_missing (Predict.feature_columns self) df)
             (Predict.feature_columns self)
  | Raise e => Raise e
  end.
Proof.
  unfold Predict.prepare_features, bind, lift.
  now destruct (Predict.build_frame self shipment w) as [[df|e] w1].
Qed.

(** The frame depends on the world only through the clock reading that
    stands in for a missing timestamp. *)
Lemma build_frame_clock self shipment w1 w2 :
  is_Some (shipment !! "timestamp")
  \/ wall_clock (ticks w1) = wall_clock (ticks w2) ->
  (Predict.build_frame self shipment w1).1
  = (Predict.build_frame self shipment w2).1.
Proof.
  intros Hor. unfold Predict.build_frame, bind, lift, getitem.
  rewrite lookup_fmap.
  destruct (shipment !! "distance_remaining_km") as [vd|]; simpl;
    [|reflexivity].
  rewrite lookup_insert_ne by discriminate. rewrite lookup_fmap.
  destruct (shipment !! "vehicle_speed_kmph") as [vs|]; simpl;
    [|reflexivity].
  encode_both self.
  simpl. rewrite !lookup_insert_ne by discriminate. rewrite lookup_fmap.
  destruct (shipment !! "timestamp") as [v|] eqn:Hv; simpl.
  - now destruct (to_datetime (cell_of_value v)).
  - destruct Hor as [[v Hsome]|Hclock]; [discriminate|].
    unfold now, ret. simpl. now rewrite Hclock.
Qed.


(** C9 (amended).  For an observation that carries a timestamp field,
    the vector [prepare_features] builds (or the exception it raises) is
    the same in every world.  For an observation without one it depends
    on the world only through the clock: two calls that read the same
    time build the same vector. *)
Theorem features_deterministic
  (self : Predict.DelayPredictor) (shipment : gmap string value)
  (w1 w2 : World) :
  is_Some (shipment !! "timestamp")
  \/ wall_clock (ticks w1) = wall_clock (ticks w2) ->
  (Predict.prepare_features self shipment w1).1
  = (Predict.prepare_features self shipment w2).1.
Proof.
  intros Hor. rewrite !prepare_features_fst.
  now rewrite (build_frame_clock self shipment w1 w2 Hor).
Qed.

End Features.


(** Two observations with different fields, one schema: the column that
    nothing computes is 0 in both vectors, at its place. *)
Lemma unknown_column_is_zero :
  returned (@Predict.prepare_features sample_runtime wide_predictor
              (sample_shipment 1000))
  = Some [CNum (1000 # 6100); CNum 0; CNum 0; CNum 14]
  /\ returned (@Predict.prepare_features sample_runtime wide_predictor
                 (<["cargo_value" := VNum 7]>
                    (delete "weather" (sample_shipment 1000))))
     = Some [CNum (1000 # 6100); CNum 7; CNum 0; CNum 14].
Proof. split; vm_compute; reflexivity. Qed.

(** Without a distance no vector is built: the lookup raises. *)
Lemma missing_distance_raises :
  (@Predict.prepare_features sample_runtime (sample_predictor (7#10))
     bare_shipment empty_world).1
  = Raise (KeyError "distance_remaining_km").
Proof. reflexivity. Qed.

(** The sample observation has a timestamp: the vector is the same at
    14:30 and at 16:00. *)
Lemma features_deterministic_witness :
  (@Predict.prepare_features sample_runtime (sample_predictor (7#10))
     (sample_shipment 1000) empty_world).1
  = (@Predict.prepare_features sample_runtime (sample_predictor (7#10))
       (sample_shipment 1000) (mkWorld 90 0 [])).1.
Proof.
  apply (@features_deterministic sample_runtime).
  left. eexists. vm_compute. reflexivity.
Defined.

(** C9, as stated, fails for an observation without a timestamp: the
    same observation, schema and encoders give hour 14 at 14:30 and hour
    16 at 16:00. *)
Lemma undated_features_follow_the_clock :
  (@Predict.prepare_features sample_runtime (sample_predictor (7#10))
     undated_shipment empty_world).1
  = Ok [CNum 1000; CNum 60; CNum 1; CNum 0; CNum 14; CNum 0; CNum 0;
        CNum (1#10); CNum (1#10); CNum (1000 # 6100)]
  /\ (@Predict.prepare_features sample_runtime (sample_predictor (7#10))
        undated_shipment (mkWorld 90 0 [])).1
     = Ok [CNum 1000; CNum 60; CNum 1; CNum 0; CNum 16; CNum 0; CNum 0;
           CNum (1#10); CNum (1#10); CNum (1000 # 6100)].
Proof. split; vm_compute; reflexivity. Qed.

(** ** Training *)

Section Training.
Context `{Runtime} `{Train.Learner}.

Lemma slow_down_ok cond lo hi base_speed w :
  exists speed w',
    Train.slow_down cond lo hi base_speed w = (Ok speed, w')
    /\ ticks w' = ticks w
    /\ alerts w' = alerts w.
Proof.
  unfold Train.slow_down, bind, Train.draw, ret.
  destruct cond; eexists _, _; (split; [reflexivity|]); now split.
Qed.

Lemma synthetic_sample_ok i w :
  exists row w',
    Train.synthetic_sample i w = (Ok row, w')
    /\ ticks w' = S (ticks w)
    /\ alerts w' = alerts w.
Proof.
  unfold Train.synthetic_sample, bind, Train.draw, now, ret.
  cbn -[Train.slow_down].
  repeat
    (match goal with
     | |- context [Train.slow_down ?c ?lo ?hi ?b ?w0] =>
         destruct (slow_down_ok c lo hi b w0) as (? & [? ? ?] & -> & ? & ?)
     end;
     cbn -[Train.slow_down] in * ).
  eexists _, _. split; [reflexivity|]. simpl. split; congruence.
Qed.

Lemma synthetic_loop_ok indices : forall data w,
  exists rows w',
    Train.synthetic_loop data indices w = (Ok (data ++ rows)%list, w')
    /\ length rows = length indices
    /\ ticks w' = (ticks w + length indices)%nat
    /\ alerts w' = alerts w.
Proof.
  induction indices as [|i rest IH]; intros data w; simpl.
  - exists [], w. rewrite app_nil_r. repeat split. lia.
  - destruct (synthetic_sample_ok i w) as (row & w1 & Hrow & Ht1 & Ha1).
    destruct (IH (data ++ [row])%list w1) as (rows & w' & Hloop & Hlen & Ht & Ha).
    exists (row :: rows), w'. unfold bind. rewrite Hrow, Hloop.
    rewrite <- app_assoc. simpl. repeat split; try congruence; lia.
Qed.

(** The generator returns [n_samples] rows and reads the clock once per
    row. *)
Lemma generate_synthetic_ok n w :
  exists df w',
    Train._generate_synthetic_training_data n w = (Ok df, w')
    /\ length df = n
    /\ ticks w' = (ticks w + n)%nat.
Proof.
  unfold Train._generate_synthetic_training_data, bind, Train.seed.
  destruct (synthetic_loop_ok (seq 0 n) [] (mkWorld (ticks w) 0 (alerts w)))
    as (rows & w' & Hloop & Hlen & Ht & _).
  exists rows, w'. rewrite Hloop. rewrite length_seq in Hlen, Ht.
  now repeat split.
Qed.

Lemma load_training_data_spec query w :
  exists df w1,
    Train.load_training_data query w = (Ok df, w1)
    /\ if Train.synthesizes query
       then Train._generate_synthetic_training_data 5000 w = (Ok df, w1)
            /\ length df = 5000%nat
            /\ ticks w1 = (ticks w + 5000)%nat
       else query = Ok df /\ w1 = w.
Proof.
  unfold Train.load_training_data, Train.synthesizes, try_except, bind, lift.
  destruct query as [df|e].
  - destruct (length df <? 100)%nat.
    + destruct (generate_synthetic_ok 5000 w) as (rows & w1 & Hgen & Hlen & Ht).
      exists rows, w1. now rewrite Hgen.
    + now exists df, w.
  - destruct (generate_synthetic_ok 5000 w) as (rows & w1 & Hgen & Hlen & Ht).
    exists rows, w1. now rewrite Hgen.
Qed.

(** What [main] does after the data is there. *)
Lemma main_after_load query w df w1 :
  Train.load_training_data query w = (Ok df, w1) ->
  Train.main query w =
  match Train.train_model Train.new df with
  | Ok predictor => Train.save_model predictor w1
  | Raise e => (Raise e, w1)
  end.
Proof.
  intros Hload. unfold Train.main, bind, lift. rewrite Hload.
  now destruct (Train.train_model Train.new df).
Qed.

Lemma save_model_provenance predictor w bundle w' :
  Train.save_model predictor w = (Ok bundle, w') ->
  Train.provenance bundle = (Some "1.0", Some (wall_clock (ticks w)))
  /\ ticks w' = S (ticks w).
Proof.
  unfold Train.save_model, bind, now, ret. intros [= <- <-]. now split.
Qed.

(** C10 (amended).  Loading the training data never fails: when the
    history has fewer than 100 rows, or cannot be read, the data are the
    5000 rows of the generator, and the history itself otherwise.  The
    bundle that [main] saves has version "1.0" and the time of the save,
    whichever data it was trained on: nothing in its provenance tells
    the two cases apart. *)
Theorem training_fallback (query : result (list Train.Row)) (w : World) :
  (exists df w1,
      Train.load_training_data query w = (Ok df, w1)
      /\ if Train.synthesizes query
         then Train._generate_synthetic_training_data 5000 w = (Ok df, w1)
              /\ length df = 5000%nat
         else query = Ok df /\ w1 = w)
  /\ (forall bundle w',
        Train.main query w = (Ok bundle, w') ->
        Train.provenance bundle
        = (Some "1.0", Some (wall_clock (Nat.pred (ticks w'))))).
Proof.
  destruct (load_training_data_spec query w) as (df & w1 & Hload & Hbranch).
  split.
  - exists df, w1. split; [exact Hload|].
    destruct (Train.synthesizes query); tauto.
  - intros bundle w' Hmain. rewrite (main_after_load _ _ _ _ Hload) in Hmain.
    destruct (Train.train_model Train.new df) as [predictor|e]; [|discriminate].
    apply save_model_provenance in Hmain as [-> ->]. reflexivity.
Qed.

Lemma insert_sorted_elem y s l :
  y ∈ LabelEncoder.insert_sorted s l <-> y = s \/ y ∈ l.
Proof.
  induction l as [|x l IH]; simpl.
  - rewrite elem_of_cons. tauto.
  - destruct (String.eqb s x) eqn:E.
    + apply String.eqb_eq in E. subst x. rewrite elem_of_cons. tauto.
    + destruct (String.ltb s x).
      * rewrite elem_of_cons. tauto.
      * rewrite !elem_of_cons, IH. tauto.
Qed.

(** A fitted encoder knows every label it was fitted on. *)
Lemma fit_covers labels x :
  x ∈ labels -> x ∈ LabelEncoder.classes_ (LabelEncoder.fit labels).
Proof.
  simpl. induction labels as [|a labels IH]; intros Hin; simpl.
  - inversion Hin.
  - apply insert_sorted_elem. apply elem_of_cons in Hin as [->|Hin]; auto.
Qed.

Lemma transform_all_ok enc labels :
  (forall x, x ∈ labels -> x ∈ LabelEncoder.classes_ enc) ->
  exists codes, Train.transform_all enc labels = Ok codes.
Proof.
  induction labels as [|a labels IH]; intros Hall; simpl.
  - now eexists.
  - destruct (LabelEncoder.index_of a (LabelEncoder.classes_ enc)) as [i|] eqn:Hi.
    + destruct IH as [codes ->]; [|now eexists].
      intros x Hx. apply Hall. now constructor.
    + apply index_of_None in Hi. exfalso. apply Hi, Hall. constructor.
Qed.

(** Training a fresh predictor only fails when sklearn does. *)
Lemma train_model_fresh df :
  exists predictor X,
    Train.engineer_features Train.new df = Ok (predictor, X)
    /\ Train.train_model Train.new df =
       match Train.fit_estimators X (map Train.is_delayed df) with
       | Ok (fitted_scaler, best_estimator) =>
           Ok (Train.mk (Some best_estimator) (Train.feature_encoders predictor)
                        (Some fitted_scaler) (Train.feature_columns predictor))
       | Raise e => Raise e
       end.
Proof.
  unfold Train.train_model, Train.engineer_features,
    Train.encode_training_column.
  simpl. rewrite lookup_empty.
  destruct (transform_all_ok (LabelEncoder.fit (map Train.weather df))
              (map Train.weather df)) as [wcodes ->]; [apply fit_covers|].
  rewrite lookup_insert_ne by discriminate. rewrite lookup_empty.
  destruct (transform_all_ok (LabelEncoder.fit (map Train.traffic_level df))
              (map Train.traffic_level df)) as [tcodes ->]; [apply fit_covers|].
  eexists _, _. split; [reflexivity|]. simpl.
  now destruct (Train.fit_estimators _ _) as [[sc clf]|e].
Qed.

End Training.

(** C10, as stated, fails: a run on a history of three rows trains on
    synthetic data, a run on a history of a hundred rows trains on the
    history, and the two bundles, saved at the same time, have the same
    provenance. *)
Lemma synthetic_run_is_not_marked :
  Train.synthesizes (Ok (sample_history 3)) = true
  /\ Train.synthesizes (Ok (sample_history 100)) = false
  /\ exists b1 b2 w1 w2,
       @Train.main sample_runtime sample_learner (Ok (sample_history 3))
         empty_world = (Ok b1, w1)
       /\ @Train.main sample_runtime sample_learner (Ok (sample_history 100))
            (mkWorld 5000 0 []) = (Ok b2, w2)
       /\ Train.provenance b1 = (Some "1.0", Some 1705629000)
       /\ Train.provenance b2 = (Some "1.0", Some 1705629000).
Proof.
  split; [reflexivity|]. split; [reflexivity|].
  destruct (@load_training_data_spec sample_runtime sample_learner
              (Ok (sample_history 3)) empty_world)
    as (df1 & w1 & Hload1 & _ & _ & Ht1).
  destruct (@load_training_data_spec sample_runtime sample_learner
              (Ok (sample_history 100)) (mkWorld 5000 0 []))
    as (df2 & w2 & Hload2 & Hdf2 & ->).
  pose proof (@main_after_load sample_runtime sample_learner _ _ _ _ Hload1)
    as Hmain1.
  pose proof (@main_after_load sample_runtime sample_learner _ _ _ _ Hload2)
    as Hmain2.
  destruct (@train_model_fresh sample_learner df1) as (p1 & X1 & _ & Htrain1).
  destruct (@train_model_fresh sample_learner df2) as (p2 & X2 & _ & Htrain2).
  rewrite Htrain1 in Hmain1. rewrite Htrain2 in Hmain2. simpl in Hmain1, Hmain2.
  eexists _, _, _, _. split; [exact Hmain1|]. split; [exact Hmain2|].
  simpl. unfold Train.provenance. simpl. rewrite Ht1. split; reflexivity.
Qed.

(** * Further properties of the engine *)

Section EngineMore.
Context `{Runtime}.

(** The dict a successful [try] block returns, field by field. *)
Lemma predict_body_result self clf shipment w p r w' :
  Predict.predict_body self clf shipment w = (Ok (p, r), w') ->
  exists features w1 est t,
    Predict.prepare_features self shipment w = (Ok features, w1)
    /\ Predict.estimate_delay p shipment = Ok est
    /\ r = {| shipment_id := get_default shipment "shipment_id" VNone;
              delay_probability := p;
              risk_level := Predict.categorize p;
              estimated_delay_minutes := est;
              prediction_timestamp := t;
              features := Some (dict_zip (Predict.feature_columns self) features);
              error := None;
              model_version := "1.0" |}.
Proof.
  unfold Predict.predict_body, bind, lift, raise, ret, now.
  destruct (Predict.prepare_features self shipment w) as [[features|e] w1];
    [|discriminate].
  destruct (Predict.scaler self) as [sc|]; [|discriminate].
  destruct (sc features) as [scaled|e]; [|discriminate].
  destruct (clf scaled) as [q|e]; [|discriminate].
  destruct (Predict.estimate_delay q shipment) as [est|e] eqn:Hest;
    [|discriminate].
  intros [= <- <- <-]. now eexists features, w1, est, _.
Qed.

Lemma predict_item_origin self results shipment w results' w' :
  Predict.predict_item self results shipment w = (Ok results', w') ->
  exists r, results' = (results ++ [r])%list /\ from_body_or_handler self r.
Proof.
  unfold Predict.predict_item, Predict.predict_delay, try_except, bind,
    raise, ret, now.
  destruct (Predict.model self) as [clf|]; simpl.
  - destruct (Predict.predict_body self clf shipment w) as [[[p r]|e] w1] eqn:Hb;
      simpl; intros [= <- <-]; eexists; (split; [reflexivity|]).
    + left. now exists clf, shipment, w, p, w1.
    + right. now eexists _, _, _.
  - intros [= <- <-]. eexists. split; [reflexivity|]. right. now eexists _, _, _.
Qed.

Lemma predict_loop_origin self shipments : forall results w results' w',
  Predict.predict_loop self results shipments w = (Ok results', w') ->
  Forall (from_body_or_handler self) results ->
  Forall (from_body_or_handler self) results'.
Proof.
  induction shipments as [|shipment rest IH]; intros results w results' w';
    simpl.
  - now intros [= <- <-].
  - unfold bind.
    destruct (Predict.predict_item self results shipment w) as [[acc|e] w1] eqn:Hitem;
      [|discriminate].
    intros Hloop Hall.
    apply predict_item_origin in Hitem as (r & -> & Hr).
    apply (IH _ _ _ _ Hloop). apply Forall_app. split; [exact Hall|].
    now constructor.
Qed.

Lemma produced_origin self r : produced self r -> from_body_or_handler self r.
Proof.
  intros [(shipment & w & p & w' & Hp) | (shipments & w & results & w' & Hb & Hin)].
  - apply predict_delay_inv in Hp as (clf & _ & [Hbody | (e & w1 & _ & _ & ->)]).
    + left. now exists clf, shipment, w, p, w'.
    + right. now eexists _, _, _.
  - unfold Predict.predict_batch in Hb.
    apply predict_loop_origin in Hb; [|constructor].
    rewrite Forall_forall in Hb. now apply Hb.
Qed.

(** X1.  On an engine that has a model, [predict_delay] never raises:
    whatever the observation, it returns a probability and a result that
    carries the same probability, the identifier of the observation
    ([None] when it has none) and the model version "1.0". *)
Theorem loaded_engine_always_answers
  (self : Predict.DelayPredictor) (clf : Classifier)
  (shipment : gmap string value) (w : World) :
  Predict.model self = Some clf ->
  exists p r w',
    Predict.predict_delay self shipment w = (Ok (p, r), w')
    /\ delay_probability r = p
    /\ shipment_id r = get_default shipment "shipment_id" VNone
    /\ model_version r = "1.0".
Proof.
  intros Hmodel. unfold Predict.predict_delay. rewrite Hmodel.
  unfold try_except.
  destruct (Predict.predict_body self clf shipment w) as [[[p r]|e] w1] eqn:Hbody.
  - exists p, r, w1. split; [reflexivity|].
    apply predict_body_result in Hbody as (features & w2 & est & t & _ & _ & ->).
    now repeat split.
  - unfold bind, now, ret. eexists _, _, _. split; [reflexivity|].
    now repeat split.
Qed.

(** X2.  For every result the engine hands out, the alert test at the
    default threshold 0.7 succeeds exactly when the risk level is High;
    and a degraded result passes the test at no threshold above 0.5. *)
Theorem alert_exactly_for_high_risk
  (self : Predict.DelayPredictor) (r : PredictionResult) :
  produced self r ->
  (Predict.should_trigger_alert r (7#10) = true <-> risk_level r = High)
  /\ (error r <> None ->
      forall threshold, (1#2 < threshold)%Q ->
        Predict.should_trigger_alert r threshold = false).
Proof.
  intros Hprod. unfold Predict.should_trigger_alert.
  destruct (produced_origin self r Hprod)
    as [(clf & shipment & w & p & w' & Hbody) | (sid & t & e & ->)].
  - apply predict_body_result in Hbody as (fs & w1 & est & t & _ & _ & ->).
    simpl. split; [|congruence].
    rewrite categorize_high. apply Qle_bool_iff.
  - simpl. split.
    + split; discriminate.
    + intros _ threshold Hthr. now apply Qle_bool_false.
Qed.

(** X3.  A result of the engine has a feature snapshot exactly when it
    has no error field: the snapshot of a degraded result is missing,
    never empty or stale. *)
Theorem snapshot_iff_no_error
  (self : Predict.DelayPredictor) (r : PredictionResult) :
  produced self r ->
  (error r = None <-> is_Some (features r)).
Proof.
  intros Hprod.
  destruct (produced_origin self r Hprod)
    as [(clf & shipment & w & p & w' & Hbody) | (sid & t & e & ->)].
  - apply predict_body_result in Hbody as (fs & w1 & est & t & _ & _ & ->).
    simpl. split; eauto.
  - simpl. split; [discriminate|]. intros [fm Hfm]. discriminate.
Qed.

End EngineMore.

Section EstimateBound.
Context `{Runtime}.

Lemma py_min_upper a b : (py_min a b <= b)%Q.
Proof.
  unfold py_min. destruct (Qltb b a) eqn:E.
  - apply Qle_refl.
  - now apply Qltb_false in E.
Qed.

Lemma py_int_upper x n : (x <= inject_Z n)%Q -> 0 <= n -> py_int x <= n.
Proof.
  intros Hx Hn. destruct (Qlt_le_dec x 0) as [Hneg|Hpos].
  - rewrite py_int_neg by assumption.
    transitivity (Qceiling 0); [|exact Hn].
    apply Qceiling_resp_le. now apply Qlt_le_weak.
  - rewrite py_int_nonneg by assumption.
    rewrite <- (Qfloor_Z n). now apply Qfloor_resp_le.
Qed.

Lemma delay_product_bound p m :
  (1#2 < p)%Q -> (p <= 1)%Q -> (m <= 2)%Q -> (p * 120 * m <= inject_Z 240)%Q.
Proof.
  intros Hlow Hp Hm.
  apply Qle_trans with (p * 120 * 2)%Q.
  - rewrite !(Qmult_comm (p * 120)).
    apply Qmult_le_compat_r; [exact Hm|]. lra.
  - change (inject_Z 240) with (240#1). lra.
Qed.

(** X4.  Whatever the distance, a result of the engine whose probability
    is at most 1 has an estimated delay of at most 240 minutes. *)
Theorem estimate_at_most_four_hours
  (self : Predict.DelayPredictor) (r : PredictionResult) :
  produced self r ->
  (delay_probability r <= 1)%Q ->
  estimated_delay_minutes r <= 240.
Proof.
  intros Hprod Hp.
  destruct (produced_origin self r Hprod)
    as [(clf & shipment & w & p & w' & Hbody) | (sid & t & e & ->)];
    [|simpl; lia].
  apply predict_body_result in Hbody as (fs & w1 & est & t & _ & Hest & ->).
  simpl in *. unfold Predict.estimate_delay in Hest.
  destruct (Qltb (1#2) p) eqn:Hhalf.
  - apply Qltb_true in Hhalf.
    destruct (get_default shipment "distance_remaining_km" (VNum 1000))
      as [|d| |]; try discriminate.
    injection Hest as <-. apply py_int_upper; [|lia].
    apply delay_product_bound; [assumption..|]. apply py_min_upper.
  - injection Hest as <-. lia.
Qed.

End EstimateBound.

(** Probability 0.95 at 9000 km: the distance factor is capped at 2 and
    the estimate, 228 minutes, is below 240. *)
Lemma estimate_at_most_four_hours_witness :
  exists r,
    returned (@Predict.predict_delay sample_runtime (sample_predictor (95#100))
                (sample_shipment 9000)) = Some (95#100, r)
    /\ estimated_delay_minutes r <= 240.
Proof.
  eexists. split; [vm_compute; reflexivity|].
  apply (@estimate_at_most_four_hours sample_runtime (sample_predictor (95#100))).
  - left. eexists (sample_shipment 9000), empty_world, _, _.
    vm_compute. reflexivity.
  - vm_compute. discriminate.
Defined.

(** ** When the feature builder fails, and what the snapshot holds *)

Section FeaturesMore.
Context `{Runtime}.

Lemma select_filled df columns :
  exists v, select (Predict.fill_missing columns df) columns = Ok v.
Proof.
  apply select_total. intros c Hc. rewrite (fill_missing_lookup _ _ _ Hc). eauto.
Qed.


Lemma dict_zip_step (f : string -> cell) keys :
  forall (values : list cell) (d : gmap string cell) k,
  length values = length keys ->
  (forall i key, keys !! i = Some key -> values !! i = Some (f key)) ->
  foldl (fun d kv => <[kv.1 := kv.2]> d) d (zip keys values) !! k
  = if decide (k ∈ keys) then Some (f k) else d !! k.
Proof.
  induction keys as [|key keys IH]; intros values d k Hlen Hval.
  - simpl. destruct (decide (k ∈ [])) as [Hin|_]; [inversion Hin|reflexivity].
  - destruct values as [|x values]; [discriminate|]. simpl.
    rewrite IH.
    + assert (x = f key) as -> by (specialize (Hval 0%nat key eq_refl);
                                   simpl in Hval; congruence).
      destruct (decide (k ∈ keys)) as [Hin|Hnin].
      * rewrite decide_True; [reflexivity|]. now right.
      * destruct (decide (k = key)) as [->|Hne].
        -- rewrite decide_True by constructor. apply lookup_insert_eq.
        -- rewrite decide_False.
           ++ now apply lookup_insert_ne.
           ++ rewrite elem_of_cons. tauto.
    + simpl in Hlen. lia.
    + intros i key' Hi. apply (Hval (S i) key' Hi).
Qed.

(** X6.  The feature snapshot of a successful prediction is the vector
    the model was given, by column name: it has exactly the columns of
    the schema, and under each the entry of the vector at that column's
    position. *)
Theorem snapshot_is_the_vector
  (self : Predict.DelayPredictor) (shipment : gmap string value)
  (w w' : World) (p : Q) (r : PredictionResult) :
  Predict.predict_delay self shipment w = (Ok (p, r), w') ->
  error r = None ->
  exists v w1 snapshot,
    Predict.prepare_features self shipment w = (Ok v, w1)
    /\ features r = Some snapshot
    /\ (forall i col,
          Predict.feature_columns self !! i = Some col ->
          snapshot !! col = v !! i)
    /\ (forall col,
          col ∉ Predict.feature_columns self -> snapshot !! col = None).
Proof.
  intros Hpred Herr.
  apply predict_delay_inv in Hpred as (clf & _ & [Hbody | (e & w1 & _ & _ & ->)]);
    [|discriminate].
  apply predict_body_result in Hbody as (v & w1 & est & t & Hfeat & _ & ->).
  exists v, w1, (dict_zip (Predict.feature_columns self) v).
  split; [exact Hfeat|]. split; [reflexivity|].
  unfold Predict.prepare_features, bind, lift in Hfeat.
  destruct (Predict.build_frame self shipment w) as [[df|e] w2]; [|discriminate].
  destruct (select _ _) as [v0|e] eqn:Hsel; [|discriminate].
  injection Hfeat as <- <-. apply select_inv in Hsel as [Hlen Hnth].
  set (filled := Predict.fill_missing (Predict.feature_columns self) df) in *.
  assert (forall i key, Predict.feature_columns self !! i = Some key ->
            v0 !! i = Some (default (CNum 0) (filled !! key))) as Hval.
  { intros i key Hi. rewrite (Hnth i key Hi).
    assert (key ∈ Predict.feature_columns self) as Hin
        by (apply list_elem_of_lookup; now exists i).
    unfold filled. rewrite (fill_missing_lookup _ _ _ Hin). reflexivity. }
  split.
  - intros i col Hi. unfold dict_zip.
    rewrite (dict_zip_step (fun key => default (CNum 0) (filled !! key))
               _ _ _ _ Hlen Hval).
    rewrite decide_True by (apply list_elem_of_lookup; now exists i).
    now rewrite (Hval i col Hi).
  - intros col Hcol. unfold dict_zip.
    rewrite (dict_zip_step (fun key => default (CNum 0) (filled !! key))
               _ _ _ _ Hlen Hval).
    now rewrite decide_False.
Qed.

End FeaturesMore.

(** ** Loading the artifact, and splitting a batch *)

Section LoadAndSplit.
Context `{Runtime}.

(** X7.  The engine's [load_model] is not atomic.  It answers [True]
    exactly when the bundle has its four keys; as soon as the bundle has
    a model the engine's model is replaced, so a bundle that lacks its
    feature columns leaves the engine with the new model and the old
    schema, although the load answered [False].  Only a bundle without
    a model leaves the engine as it was. *)
Theorem engine_load_is_not_atomic
  (self self' : Predict.DelayPredictor) (d : ModelData) (ok : bool) :
  Predict.load_model self (Ok d) = (self', ok) ->
  (ok = true <->
   is_Some (md_model d) /\ is_Some (md_scaler d)
   /\ is_Some (md_feature_encoders d) /\ is_Some (md_feature_columns d))
  /\ (forall m, md_model d = Some m -> Predict.model self' = m)
  /\ (md_feature_columns d = None ->
      Predict.feature_columns self' = Predict.feature_columns self)
  /\ (md_model d = None -> self' = self).
Proof.
  unfold Predict.load_model.
  destruct (md_model d) as [m|]; destruct (md_scaler d) as [s|];
    destruct (md_feature_encoders d) as [encs|];
    destruct (md_feature_columns d) as [cols|];
    intros [= <- <-]; repeat split; intros; simpl in *;
    try congruence; eauto;
    repeat match goal with
           | Hs : _ /\ _ |- _ => destruct Hs
           | Hs : is_Some None |- _ => destruct Hs; discriminate
           end.
Qed.


Lemma predict_item_acc self results shipment w :
  Predict.predict_item self results shipment w =
  match Predict.predict_item self [] shipment w with
  | (Ok rs, w') => (Ok (results ++ rs)%list, w')
  | (Raise e, w') => (Raise e, w')
  end.
Proof.
  unfold Predict.predict_item, try_except, bind, ret, now.
  destruct (Predict.predict_delay self shipment w) as [[[p r]|e] w1]; reflexivity.
Qed.

Lemma predict_loop_acc self shipments : forall results w,
  Predict.predict_loop self results shipments w =
  match Predict.predict_loop self [] shipments w with
  | (Ok rs, w') => (Ok (results ++ rs)%list, w')
  | (Raise e, w') => (Raise e, w')
  end.
Proof.
  induction shipments as [|shipment rest IH]; intros results w; simpl.
  - unfold ret. now rewrite app_nil_r.
  - unfold bind. rewrite (predict_item_acc self results).
    destruct (Predict.predict_item self [] shipment w) as [[rs|e] w1];
      [|reflexivity].
    rewrite (IH (results ++ rs)%list), (IH rs).
    destruct (Predict.predict_loop self [] rest w1) as [[rs'|e] w2];
      [|reflexivity].
    now rewrite app_assoc.
Qed.

(** X9.  A batch can be split: predicting [l1 ++ l2] gives the results of
    [l1] followed by the results of [l2] taken in the world the first
    batch leaves, so every result only depends on its own observation
    and on the clock. *)
Theorem predict_batch_app
  (self : Predict.DelayPredictor) (l1 l2 : list (gmap string value))
  (w : World) :
  Predict.predict_batch self (l1 ++ l2) w =
  (let* r1 := Predict.predict_batch self l1 in
   let* r2 := Predict.predict_batch self l2 in
   ret (r1 ++ r2)%list) w.
Proof.
  unfold Predict.predict_batch, bind, ret.
  generalize (@nil PredictionResult) at 1 2. revert w.
  induction l1 as [|shipment rest IH]; intros w acc; simpl.
  - unfold ret. rewrite (predict_loop_acc self l2 acc).
    now destruct (Predict.predict_loop self [] l2 w) as [[rs|e] w1].
  - unfold bind.
    destruct (Predict.predict_item self acc shipment w) as [[acc'|e] w1];
      [|reflexivity].
    apply IH.
Qed.

End LoadAndSplit.

(** * Further properties of the alerting step *)

Section AlertsMore.
Context `{Runtime}.

(** [create_alert] never raises; it returns [True] exactly when it has
    appended one row, and it leaves the rows that were there. *)
Lemma create_alert_cases am alert_data w :
  exists b w',
    Alerting.create_alert am alert_data w = (Ok b, w')
    /\ if b
       then exists sid,
              is_Some (Alerting.database_url am)
              /\ Alerting.ad_shipment_id alert_data = VStr sid
              /\ alerts w'
                 = (alerts w
                    ++ [Alerting.new_row (alerts w) sid (wall_clock (ticks w))
                          alert_data])%list
       else alerts w' = alerts w /\ (Alerting.database_url am = None -> w' = w).
Proof.
  unfold Alerting.create_alert.
  destruct (Alerting.database_url am) as [url|].
  - unfold try_except, bind, now, lift, Alerting.get_rows.
    destruct (Alerting.ad_shipment_id alert_data) as [|q|sid|t]; simpl;
      try (eexists false, _; split; [reflexivity|]; split; [reflexivity|];
           discriminate).
    destruct (existsb _ (alerts w)); simpl.
    + eexists false, _. split; [reflexivity|]. split; [reflexivity|]. discriminate.
    + eexists true, _. split; [reflexivity|]. exists sid. eauto.
  - exists false, w. now repeat split.
Qed.

Lemma trigger_loop_rows am threshold predictions : forall seen count w,
  exists new w',
    Alerting.trigger_loop am threshold count predictions w
    = (Ok (count + length new)%nat, w')
    /\ alerts w' = (alerts w ++ new)%list
    /\ (Alerting.database_url am = None -> w' = w /\ new = [])
    /\ Forall (alert_row_for threshold (seen ++ predictions)) new.
Proof.
  induction predictions as [|prediction rest IH]; intros seen count w.
  - exists [], w. simpl. rewrite app_nil_r, Nat.add_0_r. now repeat split.
  - simpl. unfold bind at 1. unfold Alerting.trigger_one.
    destruct (Qle_bool threshold (delay_probability prediction)) eqn:Hthr.
    + unfold bind.
      destruct (create_alert_cases am (Alerting.alert_data_of prediction) w)
        as (b & w1 & -> & Hb).
      unfold ret.
      destruct b.
      * destruct Hb as (sid & Hsome & Hsid & Hrows).
        destruct (IH (seen ++ [prediction])%list (S count) w1)
          as (new & w' & -> & Hrows' & Hnone & Hall).
        eexists (_ :: new), w'. split; [f_equal; f_equal; simpl; lia|].
        split; [rewrite Hrows', Hrows, <- app_assoc; reflexivity|].
        split.
        { intros Hurl. rewrite Hurl in Hsome. destruct Hsome. discriminate. }
        rewrite <- app_assoc in Hall. simpl in Hall.
        constructor; [|exact Hall].
        repeat split. exists prediction. split.
        { apply elem_of_app. right. constructor. }
        repeat split; [exact Hsid | now apply Qle_bool_iff].
      * destruct Hb as [Hrows Hnone1].
        destruct (IH (seen ++ [prediction])%list count w1)
          as (new & w' & -> & Hrows' & Hnone & Hall).
        exists new, w'. split; [reflexivity|].
        split; [now rewrite Hrows', Hrows|].
        split.
        { intros Hurl. rewrite <- (Hnone1 Hurl). now apply Hnone. }
        now rewrite <- app_assoc in Hall.
    + unfold ret.
      destruct (IH (seen ++ [prediction])%list count w)
        as (new & w' & -> & Hrows' & Hnone & Hall).
      exists new, w'. split; [reflexivity|]. split; [exact Hrows'|].
      split; [exact Hnone|]. now rewrite <- app_assoc in Hall.
Qed.

End AlertsMore.

Section AlertingStep.
Context `{Runtime}.

(** X10.  [trigger_alerts] never raises, and the number it returns is the
    number of rows it has appended to the alerts table; the rows that
    were there are left as they are.  Every new row is active, of type
    [delay_prediction], carries as metadata one of the predictions whose
    probability reaches the threshold (0.7 when PREDICTION_THRESHOLD is
    not set), and is High when that probability is at least 0.8 and
    Medium otherwise. *)
Theorem alert_count_is_rows_written
  (env_database_url : option string) (env_threshold : option Q)
  (predictions : list PredictionResult) (w : World) :
  exists new w',
    Alerting.trigger_alerts env_database_url env_threshold predictions w
    = (Ok (length new), w')
    /\ alerts w' = (alerts w ++ new)%list
    /\ Forall (alert_row_for (default (7#10) env_threshold) predictions) new.
Proof.
  unfold Alerting.trigger_alerts.
  destruct predictions as [|prediction rest].
  - exists [], w. simpl. rewrite app_nil_r. now repeat split.
  - destruct (trigger_loop_rows (Alerting.mk env_database_url)
                (default (7#10) env_threshold) (prediction :: rest) [] 0%nat w)
      as (new & w' & Hrun & Hrows & _ & Hall).
    exists new, w'. now rewrite Hrun.
Qed.

(** X11.  Without DATABASE_URL the alerting step does nothing and says
    nothing: whatever the predictions, it returns 0 and leaves the world
    as it is, the clock included. *)
Theorem unconfigured_alerting_does_nothing
  (env_threshold : option Q) (predictions : list PredictionResult) (w : World) :
  Alerting.trigger_alerts None env_threshold predictions w = (Ok 0%nat, w).
Proof.
  unfold Alerting.trigger_alerts.
  destruct predictions as [|prediction rest]; [reflexivity|].
  destruct (trigger_loop_rows (Alerting.mk None)
              (default (7#10) env_threshold) (prediction :: rest) [] 0%nat w)
    as (new & w' & Hrun & _ & Hnone & _).
  destruct (Hnone eq_refl) as [-> ->]. exact Hrun.
Qed.


Lemma trigger_loop_quiet am threshold predictions : forall count w,
  Forall (fun r => (delay_probability r < threshold)%Q) predictions ->
  Alerting.trigger_loop am threshold count predictions w = (Ok count, w).
Proof.
  induction predictions as [|prediction rest IH]; intros count w Hall;
    [reflexivity|].
  apply Forall_cons in Hall as [Hp Hrest]. simpl. unfold bind at 1.
  unfold Alerting.trigger_one.
  apply Qle_bool_false in Hp. rewrite Hp. unfold ret. now apply IH.
Qed.

(** X13.  An engine without a model never raises an alert: the batch it
    returns for any observations goes through the alerting step, at any
    threshold above 0.5, without a row being written or the clock being
    read. *)
Theorem unloaded_engine_never_alerts
  (self : Predict.DelayPredictor) (shipments : list (gmap string value))
  (env_database_url : option string) (env_threshold : option Q) (w : World) :
  Predict.model self = None ->
  (1#2 < default (7#10) env_threshold)%Q ->
  exists predictions w1,
    Predict.predict_batch self shipments w = (Ok predictions, w1)
    /\ length predictions = length shipments
    /\ Alerting.trigger_alerts env_database_url env_threshold predictions w1
       = (Ok 0%nat, w1).
Proof.
  intros Hnone Hthr. unfold Predict.predict_batch.
  destruct (predict_loop_spec self shipments [] w)
    as (rs & w1 & Hloop & Hlen & Hnth).
  exists rs, w1. split; [exact Hloop|]. split; [exact Hlen|].
  unfold Alerting.trigger_alerts. destruct rs as [|r rs']; [reflexivity|].
  apply trigger_loop_quiet. apply Forall_lookup. intros i ri Hi.
  destruct (lookup_lt_is_Some_2 shipments i) as [shipment Hs].
  { rewrite <- Hlen. now apply lookup_lt_Some in Hi. }
  destruct (Hnth i shipment Hs) as (r' & wi & Hr' & [Hres _]).
  rewrite Hi in Hr'. injection Hr' as <-.
  rewrite Hnone in Hres. destruct Hres as (-> & _). exact Hthr.
Qed.

Lemma resolve_row_facts id t r :
  let r' := Alerting.resolve_row id t r in
  alert_id r' = alert_id r
  /\ alert_shipment_id r' = alert_shipment_id r
  /\ alert_type r' = alert_type r
  /\ triggered_at r' = triggered_at r
  /\ (alert_id r = id -> is_active r' = false)
  /\ (is_active r' = true -> r' = r)
  /\ (alert_id r <> id \/ is_active r = false -> r' = r).
Proof.
  unfold Alerting.resolve_row. simpl.
  destruct (Nat.eqb (alert_id r) id) eqn:Hid; simpl.
  - apply Nat.eqb_eq in Hid. destruct (is_active r) eqn:Hact; simpl.
    + repeat split; try discriminate. intros [Hne|Hf]; congruence.
    + repeat split; congruence.
  - apply Nat.eqb_neq in Hid. repeat split; congruence.
Qed.

(** X14.  With a configured database, [resolve_alert] answers [True]
    exactly when the table has an active alert with that id.  After it
    no alert with that id is active, the other rows and the rows that
    were already resolved are as before, no row has become active, and
    resolving the same id again answers [False] and changes nothing. *)
Theorem resolve_alert_is_terminal
  (am : Alerting.AlertManager) (url : string) (id : nat) (w : World) :
  Alerting.database_url am = Some url ->
  exists b w',
    Alerting.resolve_alert am id w = (Ok b, w')
    /\ (b = true <->
        exists r, r ∈ alerts w /\ alert_id r = id /\ is_active r = true)
    /\ length (alerts w') = length (alerts w)
    /\ (forall i r, alerts w !! i = Some r ->
        exists r', alerts w' !! i = Some r'
          /\ alert_id r' = alert_id r
          /\ (alert_id r = id -> is_active r' = false)
          /\ (is_active r' = true -> r' = r)
          /\ (alert_id r <> id \/ is_active r = false -> r' = r))
    /\ exists w'',
         Alerting.resolve_alert am id w' = (Ok false, w'')
         /\ alerts w'' = alerts w'.
Proof.
  intros Hurl. unfold Alerting.resolve_alert. rewrite Hurl.
  unfold bind, now. simpl.
  eexists _, _. split; [reflexivity|]. simpl. split; [|split; [|split]].
  - rewrite existsb_exists. split.
    + intros (r & Hin & Hr). apply andb_true_iff in Hr as [Hid Hact].
      apply Nat.eqb_eq in Hid. exists r. split; [|now split].
      now apply list_elem_of_In.
    + intros (r & Hin & Hid & Hact). exists r. split.
      * now apply list_elem_of_In.
      * apply andb_true_iff. split; [now apply Nat.eqb_eq | exact Hact].
  - apply length_map.
  - intros i r Hi.
    exists (Alerting.resolve_row id (wall_clock (ticks w)) r). split.
    + change (map ?f ?l) with (f <$> l). now rewrite list_lookup_fmap, Hi.
    + destruct (resolve_row_facts id (wall_clock (ticks w)) r)
        as (Hid & _ & _ & _ & Hoff & Hon & Hsame).
      now repeat split.
  - eexists. split; [|simpl].
    + f_equal. f_equal.
      destruct (existsb _ _) eqn:Hex; [|reflexivity].
      apply existsb_exists in Hex as (r' & Hin & Hr').
      apply in_map_iff in Hin as (r & <- & _).
      apply andb_true_iff in Hr' as [Hid Hact].
      destruct (resolve_row_facts id (wall_clock (ticks w)) r)
        as (Hid' & _ & _ & _ & Hoff & _).
      simpl in Hid', Hoff. rewrite Hid' in Hid. apply Nat.eqb_eq in Hid.
      rewrite (Hoff Hid) in Hact. discriminate.
    + rewrite map_map. apply map_ext_in. intros r _.
      destruct (resolve_row_facts id (wall_clock (ticks w)) r)
        as (Hid' & _ & _ & _ & Hoff & _ & _).
      simpl in Hid', Hoff.
      apply resolve_row_facts. 
      destruct (Nat.eq_dec (alert_id r) id) as [Heq|Hne].
      * right. now apply Hoff.
      * left. congruence.
Qed.

(** X15.  A resolved alert does not suppress: when the only alerts that
    would suppress a prediction have the id that is resolved, the next
    trigger for that prediction creates a new alert, beside the resolved
    one. *)
Theorem resolved_alert_does_not_suppress
  (am : Alerting.AlertManager) (url : string) (id : nat) (threshold : Q)
  (count : nat) (prediction : PredictionResult) (sid : string) (w : World) :
  Alerting.database_url am = Some url ->
  shipment_id prediction = VStr sid ->
  (threshold <= delay_probability prediction)%Q ->
  (forall r, r ∈ alerts w ->
     Alerting.similar_active sid "delay_prediction"
       (wall_clock (S (ticks w))) r = true ->
     alert_id r = id) ->
  exists b w1 w2 row,
    Alerting.resolve_alert am id w = (Ok b, w1)
    /\ Alerting.trigger_one am threshold count prediction w1 = (Ok (S count), w2)
    /\ alerts w2 = (alerts w1 ++ [row])%list
    /\ is_active row = true
    /\ alert_shipment_id row = sid.
Proof.
  intros Hurl Hsid Hthr Honly.
  set (w1 := mkWorld (S (ticks w)) (draws w)
               (map (Alerting.resolve_row id (wall_clock (ticks w))) (alerts w))).
  assert (existsb (Alerting.similar_active sid "delay_prediction"
                     (wall_clock (ticks w1))) (alerts w1) = false) as Hfree.
  { apply existsb_false_forall. intros r' Hin. simpl in Hin.
    apply list_elem_of_In, in_map_iff in Hin as (r & <- & Hin).
    apply list_elem_of_In in Hin. simpl.
    destruct (Alerting.similar_active sid "delay_prediction"
                (wall_clock (S (ticks w)))
                (Alerting.resolve_row id (wall_clock (ticks w)) r)) eqn:Hsim;
      [|reflexivity].
    exfalso.
    destruct (resolve_row_facts id (wall_clock (ticks w)) r)
      as (_ & _ & _ & _ & Hoff & Hon & _).
    simpl in Hoff, Hon.
    assert (is_active (Alerting.resolve_row id (wall_clock (ticks w)) r) = true)
      as Hact.
    { unfold Alerting.similar_active in Hsim.
      apply andb_true_iff in Hsim as [Hsim _].
      now apply andb_true_iff in Hsim as [_ Hact]. }
    pose proof (Hon Hact) as Hsame. rewrite Hsame in Hsim.
    rewrite (Hoff (Honly r Hin Hsim)) in Hact. discriminate. }
  exists (existsb (fun r => Nat.eqb (alert_id r) id && is_active r) (alerts w)), w1.
  eexists _, _. split.
  { unfold Alerting.resolve_alert. rewrite Hurl. reflexivity. }
  unfold Alerting.trigger_one. apply Qle_bool_iff in Hthr. rewrite Hthr.
  unfold bind.
  rewrite (create_alert_spec am url (Alerting.alert_data_of prediction) sid w1
             Hurl Hsid).
  simpl Alerting.ad_alert_type. rewrite Hfree.
  split; [reflexivity|]. simpl. now repeat split.
Qed.

End AlertingStep.

(** * Further properties of training *)

Section TrainingMore.
Context `{Runtime} `{Train.Learner}.

(** X16.  [load_training_data] never raises and never returns fewer than
    100 rows: a history of at least 100 rows is returned as it is, and
    anything less, a failed read included, is replaced by 5000 synthetic
    rows. *)
Theorem training_set_has_100_rows (query : result (list Train.Row)) (w : World) :
  exists df w',
    Train.load_training_data query w = (Ok df, w')
    /\ (100 <= length df)%nat
    /\ (forall history, query = Ok history -> (100 <= length history)%nat ->
        df = history /\ w' = w).
Proof.
  destruct (load_training_data_spec query w) as (df & w' & Hload & Hbranch).
  exists df, w'. split; [exact Hload|].
  unfold Train.synthesizes in Hbranch. destruct query as [history|e].
  - destruct (length history <? 100)%nat eqn:Hshort.
    + destruct Hbranch as (_ & Hlen & _). split; [lia|].
      intros history' [= <-] Hlong. apply Nat.ltb_lt in Hshort. lia.
    + destruct Hbranch as [[= <-] ->]. apply Nat.ltb_ge in Hshort.
      split; [exact Hshort|]. now intros history' [= <-] _.
  - destruct Hbranch as (_ & Hlen & _). split; [lia|]. discriminate.
Qed.

(** What [engineer_features] leaves in a fresh predictor: an encoder
    fitted on each categorical column. *)
Lemma engineer_features_fresh df :
  exists wcodes tcodes,
    Train.transform_all (LabelEncoder.fit (map Train.weather df))
      (map Train.weather df) = Ok wcodes
    /\ Train.transform_all (LabelEncoder.fit (map Train.traffic_level df))
         (map Train.traffic_level df) = Ok tcodes
    /\ Train.engineer_features Train.new df
       = Ok (Train.mk None
               (<["traffic_level" := LabelEncoder.fit (map Train.traffic_level df)]>
                  (<["weather" := LabelEncoder.fit (map Train.weather df)]> ∅))
               None (Train.feature_columns Train.new),
             Train.feature_rows df df wcodes tcodes).
Proof.
  destruct (transform_all_ok (LabelEncoder.fit (map Train.weather df))
              (map Train.weather df)) as [wcodes Hw]; [apply fit_covers|].
  destruct (transform_all_ok (LabelEncoder.fit (map Train.traffic_level df))
              (map Train.traffic_level df)) as [tcodes Ht]; [apply fit_covers|].
  exists wcodes, tcodes. split; [exact Hw|]. split; [exact Ht|].
  unfold Train.engineer_features, Train.encode_training_column. simpl.
  rewrite lookup_empty, Hw.
  rewrite lookup_insert_ne by discriminate. rewrite lookup_empty, Ht.
  reflexivity.
Qed.

(** X17.  The bundle [main] saves can be served: the engine's
    [load_model] accepts it and then holds a model, a scaler, the ten
    feature columns of the trainer in their order, and an encoder for
    each of the two categorical fields that knows every label of the
    data the run was trained on. *)
Theorem trained_bundle_is_servable
  (query : result (list Train.Row)) (w w' : World) (bundle : ModelData)
  (self : Predict.DelayPredictor) :
  Train.main query w = (Ok bundle, w') ->
  exists clf sc encoders df w1,
    Predict.load_model self (Ok bundle)
    = (Predict.mk (Some clf) (Some sc) encoders
         [ "distance_remaining_km"; "vehicle_speed_kmph"; "weather_encoded";
           "traffic_level_encoded"; "hour_of_day"; "day_of_week"; "is_weekend";
           "origin_risk_score"; "destination_risk_score"; "route_complexity" ],
       true)
    /\ Train.load_training_data query w = (Ok df, w1)
    /\ (exists enc, encoders !! "weather" = Some enc
          /\ forall r, r ∈ df -> Train.weather r ∈ LabelEncoder.classes_ enc)
    /\ (exists enc, encoders !! "traffic_level" = Some enc
          /\ forall r, r ∈ df ->
               Train.traffic_level r ∈ LabelEncoder.classes_ enc).
Proof.
  intros Hmain.
  destruct (load_training_data_spec query w) as (df & w1 & Hload & _).
  rewrite (main_after_load _ _ _ _ Hload) in Hmain.
  unfold Train.train_model in Hmain.
  destruct (engineer_features_fresh df) as (wcodes & tcodes & _ & _ & Heng).
  rewrite Heng in Hmain. simpl in Hmain.
  destruct (Train.fit_estimators _ _) as [[sc clf]|e]; [|discriminate].
  unfold Train.save_model, bind, now, ret in Hmain. simpl in Hmain.
  injection Hmain as <- <-.
  eexists clf, sc, _, df, w1. split; [reflexivity|]. split; [exact Hload|].
  split.
  - eexists. split.
    + rewrite lookup_insert_ne by discriminate. apply lookup_insert_eq.
    + intros r Hr. apply fit_covers. apply list_elem_of_In, in_map.
      now apply list_elem_of_In.
  - eexists. split.
    + apply lookup_insert_eq.
    + intros r Hr. apply fit_covers. apply list_elem_of_In, in_map.
      now apply list_elem_of_In.
Qed.


Lemma transform_all_unseen enc labels x :
  x ∈ labels -> x ∉ LabelEncoder.classes_ enc ->
  Train.transform_all enc labels
  = Raise (ValueError "y contains previously unseen labels").
Proof.
  intros Hin Hunseen. induction labels as [|a labels IH]; [inversion Hin|].
  simpl. destruct (LabelEncoder.index_of a (LabelEncoder.classes_ enc)) as [i|] eqn:Hi;
    [|reflexivity].
  apply elem_of_cons in Hin as [->|Hin].
  - assert (LabelEncoder.index_of a (LabelEncoder.classes_ enc) = None) as Hnone
        by now apply index_of_None.
    congruence.
  - now rewrite (IH Hin).
Qed.

(** X19.  Training does not have the fallback that serving has: a
    predictor that already holds a weather encoder raises ValueError in
    [engineer_features] as soon as one row has a weather the encoder has
    not seen, where serving encodes the same value to 0. *)
Theorem retraining_rejects_unseen_label
  (self : Train.DelayPredictor) (enc : LabelEncoder.t)
  (df : list Train.Row) (r : Train.Row) :
  Train.feature_encoders self !! "weather" = Some enc ->
  r ∈ df ->
  Train.weather r ∉ LabelEncoder.classes_ enc ->
  Train.engineer_features self df
  = Raise (ValueError "y contains previously unseen labels")
  /\ Predict.encode_label enc (CStr (Train.weather r)) = Ok (CNum 0).
Proof.
  intros Henc Hin Hunseen. split.
  - unfold Train.engineer_features, Train.encode_training_column.
    rewrite Henc.
    rewrite (transform_all_unseen enc (map Train.weather df) (Train.weather r));
      [reflexivity | | exact Hunseen].
    apply list_elem_of_In, in_map. now apply list_elem_of_In.
  - unfold Predict.encode_label.
    destruct (LabelEncoder.contains enc (CStr (Train.weather r))) eqn:Hc;
      [|reflexivity].
    apply contains_elem_of in Hc. contradiction.
Qed.

End TrainingMore.

(** ** The synthetic data, and what training and serving compute *)

Lemma py_round_cases x : py_round x = Qfloor x \/ (py_round x = Qfloor x + 1 /\ (inject_Z (Qfloor x) < x)%Q).
Proof.
  unfold py_round.
  destruct (Qltb (x - inject_Z (Qfloor x)) (1#2)) eqn:E1; [now left|].
  apply Qltb_false in E1.
  assert (inject_Z (Qfloor x) < x)%Q by lra.
  destruct (Qltb (1#2) (x - inject_Z (Qfloor x))); [now right|].
  destruct (Z.even (Qfloor x)); [now left | now right].
Qed.

Lemma py_round_lower x n : (inject_Z n <= x)%Q -> n <= py_round x.
Proof.
  intros Hn. apply Qfloor_resp_le in Hn. rewrite Qfloor_Z in Hn.
  destruct (py_round_cases x) as [->|[-> _]]; lia.
Qed.

Lemma py_round_upper x n : (x <= inject_Z n)%Q -> py_round x <= n.
Proof.
  intros Hn. pose proof (Qfloor_resp_le _ _ Hn) as Hf. rewrite Qfloor_Z in Hf.
  destruct (py_round_cases x) as [->|[-> Hlt]]; [lia|].
  assert (inject_Z (Qfloor x) < inject_Z n)%Q as Hz by lra.
  rewrite <- Zlt_Qlt in Hz. lia.
Qed.

Section Synthetic.
Context `{Runtime} `{Train.Learner}.

Lemma slow_down_range cond lo hi b w :
  (forall k lo hi, (lo <= hi)%Q -> (lo <= Train.np_uniform k lo hi <= hi)%Q) ->
  (0 < lo)%Q -> (lo <= hi)%Q -> (hi <= 1)%Q -> (0 < b)%Q ->
  exists b' w',
    Train.slow_down cond lo hi b w = (Ok b', w')
    /\ (lo * b <= b')%Q /\ (b' <= b)%Q
    /\ ticks w' = ticks w /\ alerts w' = alerts w.
Proof.
  intros Hu Hlo Hle Hhi Hb. unfold Train.slow_down, bind, Train.draw, ret.
  destruct cond.
  - eexists _, _. split; [reflexivity|]. simpl.
    destruct (Hu (draws w) lo hi Hle) as [H1 H2].
    repeat split; nra.
  - eexists _, _. split; [reflexivity|]. repeat split; nra.
Qed.

Lemma synthetic_sample_range i w :
  (forall k lo hi, lo < hi -> lo <= Train.np_randint k lo hi < hi) ->
  (forall k lo hi, (lo <= hi)%Q -> (lo <= Train.np_uniform k lo hi <= hi)%Q) ->
  (forall k l, l <> [] -> Train.np_choice k l ∈ l) ->
  exists row w',
    Train.synthetic_sample i w = (Ok row, w')
    /\ synthetic_row_ok i row.
Proof.
  intros Hint Huni Hch.
  unfold Train.synthetic_sample, bind, Train.draw, now, ret.
  cbn -[Train.slow_down Train.cities Train.weather_conditions Train.traffic_levels py_round].
  destruct (Huni (S (draws w)) 40%Q 80%Q) as [Hb0 Hb0']; [discriminate|].
  match goal with
  | |- context [Train.slow_down ?c ?lo ?hi ?b ?w0] =>
      destruct (slow_down_range c lo hi b w0 Huni) as (b1 & [tk1 dr1 al1] & -> & Hl1 & Hu1 & _);
        [reflexivity | discriminate | discriminate | lra |]
  end.
  cbn -[Train.slow_down Train.cities Train.weather_conditions Train.traffic_levels py_round].
  match goal with
  | |- context [Train.slow_down ?c ?lo ?hi ?b ?w0] =>
      destruct (slow_down_range c lo hi b w0 Huni) as (b2 & [tk2 dr2 al2] & -> & Hl2 & Hu2 & _);
        [reflexivity | discriminate | discriminate | lra |]
  end.
  cbn -[Train.slow_down Train.cities Train.weather_conditions Train.traffic_levels py_round].
  match goal with
  | |- context [Train.slow_down ?c ?lo ?hi ?b ?w0] =>
      destruct (slow_down_range c lo hi b w0 Huni) as (b3 & [tk3 dr3 al3] & -> & Hl3 & Hu3 & _);
        [reflexivity | discriminate | discriminate | lra |]
  end.
  cbn -[Train.slow_down Train.cities Train.weather_conditions Train.traffic_levels py_round].
  eexists _, _. split; [reflexivity|].
  unfold synthetic_row_ok.
  cbn -[Train.cities Train.weather_conditions Train.traffic_levels py_round Train.synth_id].
  destruct (Hint (draws w) 100 4000) as [Hd Hd']; [lia|].
  split; [reflexivity|].
  split; [change 100%Q with (inject_Z 100); now rewrite <- Zle_Qle|].
  split; [change 4000%Q with (inject_Z 4000); now rewrite <- Zlt_Qlt|].
  assert (48 <= py_round (b3 * 10)) as Hr1.
  { apply py_round_lower. change (inject_Z 48) with 48%Q. lra. }
  assert (py_round (b3 * 10) <= 800) as Hr2.
  { apply py_round_upper. change (inject_Z 800) with 800%Q. lra. }
  split.
  { apply Qlt_shift_div_l; [reflexivity|]. rewrite Qmult_0_l.
    change 0%Q with (inject_Z 0). rewrite <- Zlt_Qlt. lia. }
  split.
  { apply Qle_shift_div_r; [reflexivity|].
    change (80 * 10)%Q with (inject_Z 800). rewrite <- Zle_Qle. lia. }
  repeat split; apply Hch; discriminate.
Qed.

Lemma synthetic_loop_range indices :
  (forall k lo hi, lo < hi -> lo <= Train.np_randint k lo hi < hi) ->
  (forall k lo hi, (lo <= hi)%Q -> (lo <= Train.np_uniform k lo hi <= hi)%Q) ->
  (forall k l, l <> [] -> Train.np_choice k l ∈ l) ->
  forall data w,
  exists rows w',
    Train.synthetic_loop data indices w = (Ok (data ++ rows)%list, w')
    /\ Forall2 synthetic_row_ok indices rows.
Proof.
  intros Hint Huni Hch.
  induction indices as [|i rest IH]; intros data w; simpl.
  - exists [], w. rewrite app_nil_r. split; [reflexivity|constructor].
  - destruct (synthetic_sample_range i w Hint Huni Hch) as (row & w1 & Hrow & Hok).
    destruct (IH (data ++ [row])%list w1) as (rows & w' & Hloop & Hall).
    exists (row :: rows), w'. unfold bind. rewrite Hrow, Hloop.
    rewrite <- app_assoc. split; [reflexivity|]. now constructor.
Qed.

(** X20.  When numpy's draws stay in the ranges they are asked for, the
    generator returns exactly [n_samples] rows, and its [i]-th row has
    the identifier SYNTH_ followed by [i] on six digits, a distance of
    at least 100 and below 4000, a speed above 0 and of at most 80, and
    a weather, a traffic level and two cities from the generator's
    lists. *)
Theorem synthetic_rows_in_range (n_samples : nat) (w : World) :
  (forall k lo hi, lo < hi -> lo <= Train.np_randint k lo hi < hi) ->
  (forall k lo hi, (lo <= hi)%Q -> (lo <= Train.np_uniform k lo hi <= hi)%Q) ->
  (forall k l, l <> [] -> Train.np_choice k l ∈ l) ->
  exists df w',
    Train._generate_synthetic_training_data n_samples w = (Ok df, w')
    /\ length df = n_samples
    /\ forall i r, df !! i = Some r -> synthetic_row_ok i r.
Proof.
  intros Hint Huni Hch.
  unfold Train._generate_synthetic_training_data, bind, Train.seed.
  destruct (synthetic_loop_range (seq 0 n_samples) Hint Huni Hch []
              (mkWorld (ticks w) 0 (alerts w))) as (rows & w' & Hloop & Hall).
  exists rows, w'. split; [exact Hloop|]. split.
  - apply Forall2_length in Hall. now rewrite length_seq in Hall.
  - intros i r Hi.
    destruct (Forall2_lookup_r _ _ _ _ _ Hall Hi) as (j & Hj & Hok).
    apply lookup_seq in Hj as [-> _]. exact Hok.
Qed.

Lemma transform_all_lookup enc labels : forall codes i x,
  Train.transform_all enc labels = Ok codes ->
  labels !! i = Some x ->
  exists c, codes !! i = Some c
    /\ LabelEncoder.index_of x (LabelEncoder.classes_ enc) = Some c.
Proof.
  induction labels as [|a labels IH]; intros codes i x; simpl; [discriminate|].
  destruct (LabelEncoder.index_of a (LabelEncoder.classes_ enc)) as [c|] eqn:Hc;
    [|discriminate].
  destruct (Train.transform_all enc labels) as [cs|e]; [|discriminate].
  intros [= <-]. destruct i as [|i]; simpl.
  - intros [= <-]. now exists c.
  - intros Hi. now apply (IH cs i x eq_refl).
Qed.

Lemma feature_rows_lookup df rows : forall wcodes tcodes i r wc tc,
  rows !! i = Some r -> wcodes !! i = Some wc -> tcodes !! i = Some tc ->
  Train.feature_rows df rows wcodes tcodes !! i
  = Some (Train.feature_row df r wc tc).
Proof.
  induction rows as [|r0 rows IH]; intros wcodes tcodes i r wc tc; [discriminate|].
  destruct wcodes as [|w0 wcodes]; [discriminate|].
  destruct tcodes as [|t0 tcodes]; [discriminate|].
  destruct i as [|i]; simpl.
  - now intros [= <-] [= <-] [= <-].
  - apply IH.
Qed.

Lemma encode_label_fitted labels x c :
  LabelEncoder.index_of x (LabelEncoder.classes_ (LabelEncoder.fit labels)) = Some c ->
  Predict.encode_label (LabelEncoder.fit labels) (CStr x)
  = Ok (CNum (inject_Z (Z.of_nat c))).
Proof.
  intros Hc. unfold Predict.encode_label.
  assert (LabelEncoder.contains (LabelEncoder.fit labels) (CStr x) = true) as ->.
  { apply contains_elem_of. destruct (decide (x ∈ LabelEncoder.classes_ (LabelEncoder.fit labels))) as [|Hn]; [assumption|].
    apply index_of_None in Hn. congruence. }
  unfold LabelEncoder.transform. now rewrite Hc.
Qed.

(** X21.  Training and serving compute the same features, but for two.
    For a row of the training data and the observation that has the
    row's distance, speed, weather, traffic level and timestamp, the
    vector the engine builds with the encoders fitted on that data is
    the feature row of training, except that the origin and destination
    risk scores, which are frequencies in training, are the constant 0.1
    in serving. *)
Theorem train_serve_parity
  (df : list Train.Row) (i : nat) (r : Train.Row)
  (predictor : Train.DelayPredictor) (X : list (list cell))
  (m : option Classifier) (sc : option Scaler)
  (shipment : gmap string value) (w : World) :
  (forall q, to_numeric (CNum q) = Some q) ->
  (forall t, to_datetime (CTime t) = Ok (Some t)) ->
  Train.engineer_features Train.new df = Ok (predictor, X) ->
  df !! i = Some r ->
  shipment !! "distance_remaining_km" = Some (VNum (Train.distance_remaining_km r)) ->
  shipment !! "vehicle_speed_kmph" = Some (VNum (Train.vehicle_speed_kmph r)) ->
  shipment !! "weather" = Some (VStr (Train.weather r)) ->
  shipment !! "traffic_level" = Some (VStr (Train.traffic_level r)) ->
  shipment !! "timestamp" = Some (VTime (Train.timestamp r)) ->
  exists x v,
    X !! i = Some x
    /\ Predict.prepare_features
         (Predict.mk m sc (Train.feature_encoders predictor)
                     (Train.feature_columns predictor)) shipment w
       = (Ok v, w)
    /\ v = <[7%nat := CNum (1#10)]> (<[8%nat := CNum (1#10)]> x)
    /\ x !! 7%nat = Some (CNum (Train.risk_score (Train.origin r) (map Train.origin df)))
    /\ x !! 8%nat = Some (CNum (Train.risk_score (Train.destination r) (map Train.destination df))).
Proof.
  intros Hnum Hdate Heng Hi Hd Hs Hw Ht Hts.
  destruct (engineer_features_fresh df) as (wcodes & tcodes & Hwc & Htc & Heng').
  rewrite Heng' in Heng. injection Heng as <- <-.
  destruct (transform_all_lookup _ _ _ i (Train.weather r) Hwc) as (wc & Hwci & Hwidx).
  { change (map Train.weather df) with (Train.weather <$> df). now rewrite list_lookup_fmap, Hi. }
  destruct (transform_all_lookup _ _ _ i (Train.traffic_level r) Htc) as (tc & Htci & Htidx).
  { change (map Train.traffic_level df) with (Train.traffic_level <$> df). now rewrite list_lookup_fmap, Hi. }
  exists (Train.feature_row df r wc tc).
  set (self := Predict.mk m sc _ _).
  assert (exists dframe,
    Predict.build_frame self shipment w = (Ok dframe, w)
    /\ dframe !! "distance_remaining_km" = Some (CNum (Train.distance_remaining_km r))
    /\ dframe !! "vehicle_speed_kmph" = Some (CNum (Train.vehicle_speed_kmph r))
    /\ dframe !! "weather_encoded" = Some (CNum (inject_Z (Z.of_nat wc)))
    /\ dframe !! "traffic_level_encoded" = Some (CNum (inject_Z (Z.of_nat tc)))
    /\ dframe !! "hour_of_day" = Some (CNum (inject_Z (dt_hour (Train.timestamp r))))
    /\ dframe !! "day_of_week" = Some (CNum (inject_Z (dt_dayofweek (Train.timestamp r))))
    /\ dframe !! "is_weekend" = Some (CNum (if (5 <=? dt_dayofweek (Train.timestamp r))%Z then 1 else 0))
    /\ dframe !! "origin_risk_score" = Some (CNum (1#10))
    /\ dframe !! "destination_risk_score" = Some (CNum (1#10))
    /\ dframe !! "route_complexity" = Some (Predict.route_complexity (Train.distance_remaining_km r) (Train.vehicle_speed_kmph r)))
    as (dframe & Hframe & Hc).
  { unfold Predict.build_frame, bind, lift, getitem.
    rewrite lookup_fmap, Hd. simpl. rewrite Hnum. simpl.
    rewrite lookup_insert_ne by discriminate. rewrite lookup_fmap, Hs. simpl.
    rewrite Hnum. simpl.
    unfold Predict.encode_column.
    rewrite !lookup_insert_ne by discriminate. rewrite lookup_fmap, Hw. simpl.
    rewrite lookup_insert_ne by discriminate. rewrite lookup_insert_eq.
    rewrite (encode_label_fitted _ _ _ Hwidx).
    change ("weather" ++ "_encoded") with "weather_encoded".
    rewrite !lookup_insert_ne by discriminate. rewrite lookup_fmap, Ht. simpl.
    rewrite lookup_insert_eq.
    rewrite (encode_label_fitted _ _ _ Htidx).
    change ("traffic_level" ++ "_encoded") with "traffic_level_encoded".
    rewrite !lookup_insert_ne by discriminate. rewrite lookup_fmap, Hts. simpl.
    rewrite Hdate. simpl.
    eexists. split; [reflexivity|].
    unfold Predict.time_features.
    repeat split; simplify_map_eq; reflexivity. }
  destruct Hc as (C0 & C1 & C2 & C3 & C4 & C5 & C6 & C7 & C8 & C9).
  destruct (select_filled dframe (Predict.feature_columns self)) as [v Hsel].
  exists v. split.
  { now apply feature_rows_lookup. }
  split.
  { unfold Predict.prepare_features, bind, lift. now rewrite Hframe, Hsel. }
  apply select_inv in Hsel as [Hlen Hnth].
  assert (forall j col, Predict.feature_columns self !! j = Some col ->
            v !! j = Some (default (CNum 0) (dframe !! col))) as Hentry.
  { intros j col Hj. rewrite (Hnth j col Hj).
    apply fill_missing_lookup. apply list_elem_of_lookup. now exists j. }
  split; [|split; reflexivity].
  simpl in Hlen.
  pose proof (Hentry 0%nat _ eq_refl) as E0. pose proof (Hentry 1%nat _ eq_refl) as E1.
  pose proof (Hentry 2%nat _ eq_refl) as E2. pose proof (Hentry 3%nat _ eq_refl) as E3.
  pose proof (Hentry 4%nat _ eq_refl) as E4. pose proof (Hentry 5%nat _ eq_refl) as E5.
  pose proof (Hentry 6%nat _ eq_refl) as E6. pose proof (Hentry 7%nat _ eq_refl) as E7.
  pose proof (Hentry 8%nat _ eq_refl) as E8. pose proof (Hentry 9%nat _ eq_refl) as E9.
  rewrite C0 in E0. rewrite C1 in E1. rewrite C2 in E2. rewrite C3 in E3.
  rewrite C4 in E4. rewrite C5 in E5. rewrite C6 in E6. rewrite C7 in E7.
  rewrite C8 in E8. rewrite C9 in E9.
  do 10 (destruct v as [|? v]; [discriminate|]).
  destruct v; [|discriminate].
  simpl in *. congruence.
Qed.
End Synthetic.

(** ** The consumer *)

Lemma consume_loop_spec items : forall acc c,
  c = length acc -> (c < 1000)%nat ->
  match Dag.consume_loop acc c items with
  | Ok ms =>
      exists rest, ms = (acc ++ rest)%list
                   /\ Ok <$> rest = take (1000 - c) items
  | Raise e => Raise e ∈ take (1000 - c) items
  end.
Proof.
  induction items as [|item items IH]; intros acc c Hc Hlt.
  - simpl. exists []. rewrite app_nil_r, take_nil. now split.
  - replace (1000 - c)%nat with (S (999 - c)) by lia.
    cbn [Dag.consume_loop take]. destruct item as [m|e].
    + destruct (Nat.leb_spec 1000 (S c)) as [Hfull|Hmore].
      * exists [m]. split; [reflexivity|].
        replace (999 - c)%nat with 0%nat by lia. now rewrite take_0.
      * specialize (IH (acc ++ [m])%list (S c)).
        replace (1000 - S c)%nat with (999 - c)%nat in IH by lia.
        destruct (Dag.consume_loop (acc ++ [m]) (S c) items) as [ms|e].
        -- destruct IH as (rest & -> & Hrest); [rewrite length_app; simpl; lia | lia |].
           exists (m :: rest). rewrite <- app_assoc. split; [reflexivity|].
           rewrite fmap_cons. now rewrite Hrest.
        -- right. apply IH; [rewrite length_app; simpl; lia | lia].
    + constructor.
Qed.

(** X22.  [consume_kafka_data] pushes at most 1000 messages and returns
    how many it pushed.  When the first 1000 items of the stream all
    deserialize, the messages are those items, in order, and nothing
    after them is read; when one of them raises, or the consumer cannot
    be built, the list pushed is empty and the messages read before the
    failure are lost. *)
Theorem consume_is_bounded_prefix
  (connection : result (list (result (gmap string value)))) :
  (Dag.consume_kafka_data connection).2
  = length (Dag.consume_kafka_data connection).1
  /\ (length (Dag.consume_kafka_data connection).1 <= 1000)%nat
  /\ forall consumer, connection = Ok consumer ->
       (Forall (fun item => exists m, item = Ok m) (take 1000 consumer) ->
        Ok <$> (Dag.consume_kafka_data connection).1 = take 1000 consumer)
       /\ ((exists e, Raise e ∈ take 1000 consumer) ->
           (Dag.consume_kafka_data connection).1 = []).
Proof.
  unfold Dag.consume_kafka_data. destruct connection as [consumer|e].
  - pose proof (consume_loop_spec consumer [] 0%nat eq_refl) as Hspec.
    destruct (Dag.consume_loop [] 0 consumer) as [ms|e].
    + destruct Hspec as (rest & -> & Hrest); [lia|]. simpl.
      split; [reflexivity|]. split.
      * rewrite <- (length_fmap Ok), Hrest, length_take. lia.
      * intros consumer' [= <-]. split; [now intros _|].
        intros [e He]. exfalso. change (1000 - 0)%nat with 1000%nat in Hrest.
        rewrite <- Hrest in He. apply list_elem_of_fmap in He as (m & Hm & _).
        discriminate.
    + simpl. split; [reflexivity|]. split; [lia|].
      intros consumer' [= <-]. split; [|reflexivity].
      intros Hall. exfalso. specialize (Hspec ltac:(lia)).
      change (1000 - 0)%nat with 1000%nat in Hspec.
      rewrite Forall_forall in Hall. destruct (Hall _ Hspec) as [m Hm].
      discriminate.
  - simpl. split; [reflexivity|]. split; [lia|]. intros consumer [=].
Qed.

(** ** The further properties at sample inputs *)

(** The loaded sample engine answers an observation that only has its
    identifier. *)
Lemma loaded_engine_always_answers_witness :
  exists p r w',
    @Predict.predict_delay sample_runtime (sample_predictor (7#10))
      bare_shipment empty_world = (Ok (p, r), w')
    /\ delay_probability r = p.
Proof.
  destruct (@loaded_engine_always_answers sample_runtime (sample_predictor (7#10))
              (stub_model (7#10)) bare_shipment empty_world eq_refl)
    as (p & r & w' & Hrun & Hp & _).
  now exists p, r, w'.
Defined.

(** A prediction at 0.75 is High and passes the alert test. *)
Lemma alert_exactly_for_high_risk_witness :
  exists r,
    returned (@Predict.predict_delay sample_runtime (sample_predictor (75#100))
                (sample_shipment 1000)) = Some (75#100, r)
    /\ Predict.should_trigger_alert r (7#10) = true
    /\ risk_level r = High.
Proof.
  eexists. split; [vm_compute; reflexivity|]. split; [reflexivity|].
  match goal with
  | |- risk_level ?r = _ =>
      destruct (@alert_exactly_for_high_risk sample_runtime
                  (sample_predictor (75#100)) r) as [Hiff _]
  end.
  - left. eexists (sample_shipment 1000), empty_world, _, _.
    vm_compute. reflexivity.
  - apply Hiff. reflexivity.
Defined.

(** A successful prediction has its snapshot. *)
Lemma snapshot_iff_no_error_witness :
  exists r,
    returned (@Predict.predict_delay sample_runtime (sample_predictor (7#10))
                (sample_shipment 1000)) = Some (7#10, r)
    /\ is_Some (features r).
Proof.
  eexists. split; [vm_compute; reflexivity|].
  apply (@snapshot_iff_no_error sample_runtime (sample_predictor (7#10))).
  - left. eexists (sample_shipment 1000), empty_world, _, _.
    vm_compute. reflexivity.
  - reflexivity.
Defined.

(** The snapshot of the sample prediction has hour 14 under
    [hour_of_day]. *)
Lemma snapshot_is_the_vector_witness :
  exists r snapshot,
    returned (@Predict.predict_delay sample_runtime (sample_predictor (7#10))
                (sample_shipment 1000)) = Some (7#10, r)
    /\ features r = Some snapshot
    /\ snapshot !! "hour_of_day" = Some (CNum 14).
Proof.
  destruct (@snapshot_is_the_vector sample_runtime (sample_predictor (7#10))
              (sample_shipment 1000) empty_world _ (7#10) _ eq_refl eq_refl)
    as (v & w1 & snapshot & Hfeat & Hsnap & Hcols & _).
  eexists _, snapshot. split; [vm_compute; reflexivity|].
  split; [exact Hsnap|].
  rewrite (Hcols 4%nat "hour_of_day" eq_refl).
  vm_compute in Hfeat. injection Hfeat as <- _. reflexivity.
Defined.

(** Loading the bundle without feature columns fails and still replaces
    the model. *)
Lemma engine_load_is_not_atomic_witness :
  (Predict.load_model (sample_predictor (7#10)) (Ok partial_bundle)).2 = false
  /\ Predict.model
       (Predict.load_model (sample_predictor (7#10)) (Ok partial_bundle)).1
     = Some (stub_model (9#10))
  /\ Predict.feature_columns
       (Predict.load_model (sample_predictor (7#10)) (Ok partial_bundle)).1
     = Predict.feature_columns (sample_predictor (7#10)).
Proof.
  destruct (engine_load_is_not_atomic (sample_predictor (7#10))
              (Predict.load_model (sample_predictor (7#10)) (Ok partial_bundle)).1
              partial_bundle
              (Predict.load_model (sample_predictor (7#10)) (Ok partial_bundle)).2
              eq_refl)
    as (_ & Hmodel & Hcols & _).
  split; [reflexivity|]. split.
  - apply Hmodel. reflexivity.
  - apply Hcols. reflexivity.
Defined.



(** The engine built without a model file, one observation, the default
    threshold. *)
Lemma unloaded_engine_never_alerts_witness :
  exists predictions w1,
    @Predict.predict_batch sample_runtime (Predict.new None)
      [sample_shipment 1000] empty_world = (Ok predictions, w1)
    /\ length predictions = 1%nat
    /\ @Alerting.trigger_alerts sample_runtime (Some "postgresql://freight")
         None predictions w1 = (Ok 0%nat, w1).
Proof.
  apply (@unloaded_engine_never_alerts sample_runtime (Predict.new None)
           [sample_shipment 1000]); reflexivity.
Defined.

(** Resolving the alert of shipment S1. *)
Lemma resolve_alert_is_terminal_witness :
  exists b w',
    @Alerting.resolve_alert sample_runtime sample_manager 1 alerted_world
    = (Ok b, w')
    /\ length (alerts w') = length (alerts alerted_world).
Proof.
  destruct (@resolve_alert_is_terminal sample_runtime sample_manager
              "postgresql://freight" 1 alerted_world eq_refl)
    as (b & w' & Hrun & _ & Hlen & _).
  now exists b, w'.
Defined.

(** After the alert of shipment S1 is resolved, a second trigger creates
    a second alert. *)
Lemma resolved_alert_does_not_suppress_witness :
  exists b w1 w2 row,
    @Alerting.resolve_alert sample_runtime sample_manager 1 alerted_world
    = (Ok b, w1)
    /\ @Alerting.trigger_one sample_runtime sample_manager (7#10) 0
         (sample_prediction (75#100)) w1 = (Ok 1%nat, w2)
    /\ alerts w2 = (alerts w1 ++ [row])%list
    /\ is_active row = true
    /\ alert_shipment_id row = "S1".
Proof.
  apply (@resolved_alert_does_not_suppress sample_runtime sample_manager
           "postgresql://freight" 1 (7#10) 0 (sample_prediction (75#100)) "S1"
           alerted_world).
  - reflexivity.
  - reflexivity.
  - vm_compute. discriminate.
  - intros r Hr _. vm_compute in Hr.
    apply list_elem_of_In in Hr. destruct Hr as [<-|[]]. reflexivity.
Defined.

(** A history of a hundred rows is served as it was trained. *)
Lemma trained_bundle_is_servable_witness :
  exists bundle w',
    @Train.main sample_runtime sample_learner (Ok (sample_history 100))
      empty_world = (Ok bundle, w')
    /\ (Predict.load_model (Predict.new None) (Ok bundle)).2 = true.
Proof.
  assert (exists bundle w',
             @Train.main sample_runtime sample_learner (Ok (sample_history 100))
               empty_world = (Ok bundle, w')) as (bundle & w' & Hmain).
  { eexists _, _. vm_compute. reflexivity. }
  exists bundle, w'. split; [exact Hmain|].
  destruct (@trained_bundle_is_servable sample_runtime sample_learner _ _ _ _
              (Predict.new None) Hmain)
    as (clf & sc & encoders & df & w1 & -> & _).
  reflexivity.
Defined.


(** A predictor that only knows "Clear" cannot be trained on a row with
    rain. *)
Lemma retraining_rejects_unseen_label_witness :
  Train.engineer_features fair_weather_predictor (sample_history 1)
  = Raise (ValueError "y contains previously unseen labels").
Proof.
  apply (retraining_rejects_unseen_label fair_weather_predictor
           (LabelEncoder.fit ["Clear"]) (sample_history 1) (sample_row 0)).
  - reflexivity.
  - constructor.
  - intros Hin. apply contains_elem_of in Hin. vm_compute in Hin. discriminate.
Defined.

(** The sample learner draws the lower end of every range. *)
Lemma synthetic_rows_in_range_witness :
  exists df w',
    @Train._generate_synthetic_training_data sample_runtime sample_learner 2
      empty_world = (Ok df, w')
    /\ length df = 2%nat
    /\ forall i r, df !! i = Some r -> synthetic_row_ok i r.
Proof.
  apply (@synthetic_rows_in_range sample_runtime sample_learner).
  - intros k lo hi Hlt. simpl. lia.
  - intros k lo hi Hle. simpl. split; [apply Qle_refl | exact Hle].
  - intros k l Hl. simpl. apply list_elem_of_In, nth_In.
    apply Nat.mod_upper_bound. destruct l; [contradiction | discriminate].
Defined.

(** The first row of a history of three rows: training and serving agree
    but for the two risk scores. *)
Lemma train_serve_parity_witness :
  exists predictor X x v,
    Train.engineer_features Train.new (sample_history 3) = Ok (predictor, X)
    /\ X !! 0%nat = Some x
    /\ @Predict.prepare_features sample_runtime
         (Predict.mk None None (Train.feature_encoders predictor)
                     (Train.feature_columns predictor))
         sample_row_shipment empty_world = (Ok v, empty_world)
    /\ v = <[7%nat := CNum (1#10)]> (<[8%nat := CNum (1#10)]> x).
Proof.
  assert (exists predictor X,
             Train.engineer_features Train.new (sample_history 3)
             = Ok (predictor, X)) as (predictor & X & Heng).
  { eexists _, _. vm_compute. reflexivity. }
  destruct (@train_serve_parity sample_runtime (sample_history 3)
              0 (sample_row 0) predictor X None None sample_row_shipment
              empty_world)
    as (x & v & Hx & Hv & Heq & _); try reflexivity; try exact Heng.
  now exists predictor, X, x, v.
Defined.

(** ** The estimate grows with the probability *)

Lemma py_int_mono x y : (x <= y)%Q -> py_int x <= py_int y.
Proof.
  intros Hxy. destruct (Qlt_le_dec x 0) as [Hx|Hx].
  - rewrite (py_int_neg x Hx). destruct (Qlt_le_dec y 0) as [Hy|Hy].
    + rewrite (py_int_neg y Hy). now apply Qceiling_resp_le.
    + transitivity (Qceiling 0).
      * apply Qceiling_resp_le. now apply Qlt_le_weak.
      * now apply py_int_sign.
  - rewrite (py_int_nonneg x Hx), (py_int_nonneg y) by lra.
    now apply Qfloor_resp_le.
Qed.

(** X23.  For an observation whose distance is not negative (or is
    absent, which counts as 1000 km), the estimated delay does not
    decrease when the probability increases. *)
Theorem estimate_grows_with_probability
  (p p' : Q) (shipment : gmap string value) (e e' : Z) :
  (p <= p')%Q ->
  (forall d, shipment !! "distance_remaining_km" = Some (VNum d) -> (0 <= d)%Q) ->
  Predict.estimate_delay p shipment = Ok e ->
  Predict.estimate_delay p' shipment = Ok e' ->
  e <= e'.
Proof.
  intros Hpp Hdist. unfold Predict.estimate_delay, get_default.
  assert (forall d,
             match shipment !! "distance_remaining_km" with
             | Some a => a
             | None => VNum 1000
             end = VNum d -> (0 <= py_min (d / 1000) 2)%Q) as Hfactor.
  { intros d Hd. apply py_min_nonneg; [|discriminate].
    destruct (shipment !! "distance_remaining_km") as [v|] eqn:Hv.
    - subst v. specialize (Hdist d eq_refl).
      apply Qle_shift_div_l; [reflexivity|]. now rewrite Qmult_0_l.
    - injection Hd as <-. discriminate. }
  destruct (Qltb (1#2) p) eqn:Hp; destruct (Qltb (1#2) p') eqn:Hp'.
  - destruct (match shipment !! "distance_remaining_km" with
              | Some a => a
              | None => VNum 1000
              end) as [|d| |]; try discriminate.
    intros [= <-] [= <-]. apply py_int_mono.
    specialize (Hfactor d eq_refl). nra.
  - apply Qltb_true in Hp. apply Qltb_false in Hp'. lra.
  - destruct (match shipment !! "distance_remaining_km" with
              | Some a => a
              | None => VNum 1000
              end) as [|d| |]; try discriminate.
    intros [= <-] [= <-]. apply py_int_sign.
    specialize (Hfactor d eq_refl). apply Qltb_true in Hp'. nra.
  - intros [= <-] [= <-]. lia.
Qed.

(** At 2000 km, 0.6 gives 144 minutes and 0.9 gives 216. *)
Lemma estimate_grows_with_probability_witness :
  Predict.estimate_delay (6#10) (sample_shipment 2000) = Ok 144
  /\ Predict.estimate_delay (9#10) (sample_shipment 2000) = Ok 216
  /\ 144 <= 216.
Proof.
  split; [reflexivity|]. split; [reflexivity|].
  apply (estimate_grows_with_probability (6#10) (9#10) (sample_shipment 2000)).
  - vm_compute. discriminate.
  - intros d Hd. vm_compute in Hd. injection Hd as <-. discriminate.
  - reflexivity.
  - reflexivity.
Defined.
